(** * A shallow embedding of copick_server's request handling

    The module [copick_server/server.py] exposes a copick project over
    HTTP through one catch-all route, [CopickRoute.handle_request], which
    dispatches to three handlers ([_handle_tomogram], [_handle_picks],
    [_handle_segmentation]).  The client ([copick_server/client.py])
    produces the binary segmentation frame decoded by the segmentation
    handler.

    The development has four layers:
    - [PyStr]: the Python string operations the handlers use
      ([str.split], [str.join], [str.replace], [in]) and a model of
      Python's [float(str)] parser;
    - [Frame]: bytes, numpy's int64 [tobytes]/[frombuffer] and numpy's
      [reshape] check, giving the segmentation-frame encoder of the client
      and the decoder of the server;
    - [Server]: the handlers, written in a small state/exception monad over
      an abstract copick backend (a type class for the copick objects the
      handlers talk to), logging every backend call;
    - [Demo]: a concrete in-memory backend used for concrete runs. *)

From Stdlib Require Import String Ascii List ZArith QArith Bool Lia.
Import ListNotations.
Open Scope Z_scope.

(* ------------------------------------------------------------------ *)
(** ** Python strings *)

Module PyStr.

Open Scope string_scope.
Open Scope Z_scope.

(** [s.split(c)] for a one-character separator: splitting the empty
    string gives one empty field, and empty fields are kept. *)
Fixpoint py_split (c : ascii) (s : string) : list string :=
  match s with
  | EmptyString => [EmptyString]
  | String a s' =>
      let rest := py_split c s' in
      if Ascii.eqb a c then EmptyString :: rest
      else match rest with
           | h :: t => String a h :: t
           | [] => [String a EmptyString]
           end
  end.

(** [sep.join(l)]. *)
Fixpoint py_join (sep : string) (l : list string) : string :=
  match l with
  | [] => EmptyString
  | [x] => x
  | x :: t => x ++ sep ++ py_join sep t
  end.

Fixpoint str_drop (n : nat) (s : string) : string :=
  match n, s with
  | O, _ => s
  | S n', String _ s' => str_drop n' s'
  | S _, EmptyString => EmptyString
  end.

(** [s.replace(old, new)] with a non-empty [old]: a single left-to-right
    pass replacing non-overlapping occurrences.  [fuel] bounds the number
    of steps; each step consumes at least one character. *)
Fixpoint replace_go (fuel : nat) (old new s : string) : string :=
  match fuel with
  | O => s
  | S f =>
      match s with
      | EmptyString => EmptyString
      | String c s' =>
          if String.prefix old s
          then new ++ replace_go f old new (str_drop (String.length old) s)
          else String c (replace_go f old new s')
      end
  end.

(** [s.replace(old, new)] with an empty [old] inserts [new] around every
    character. *)
Fixpoint replace_empty (new s : string) : string :=
  match s with
  | EmptyString => new
  | String c s' => new ++ String c (replace_empty new s')
  end.

Definition py_replace (old new s : string) : string :=
  match old with
  | EmptyString => replace_empty new s
  | _ => replace_go (String.length s) old new s
  end.

(** Whether [s] contains the character [c] (a path segment produced by
    [split] never contains its separator). *)
Fixpoint has_char (c : ascii) (s : string) : bool :=
  match s with
  | EmptyString => false
  | String a s' => Ascii.eqb a c || has_char c s'
  end.

(** [needle in hay]. *)
Fixpoint py_contains (needle hay : string) : bool :=
  String.prefix needle hay ||
  match hay with
  | EmptyString => false
  | String _ h => py_contains needle h
  end.

(** *** [float(s)] for a str

    CPython's [PyFloat_FromString]: underscores are removed first (only
    when each one sits between two digits), whitespace is stripped, then
    [_Py_dg_strtod] reads an optional sign, digits with an optional
    fraction (at least one digit in all) and an optional exponent, or
    [_Py_parse_inf_or_nan] reads a sign and inf, infinity or nan
    case-insensitively, and the whole string must be consumed; otherwise
    [ValueError].  A finite result is kept as the exact decimal value it
    denotes (rounding to binary64 is not modelled); ASCII input only. *)

Inductive pyfloat :=
| PFin (q : Q)
| PInf (neg : bool)
| PNaN.

Definition pyfloat_eqb (x y : pyfloat) : bool :=
  match x, y with
  | PFin a, PFin b => Qeq_bool a b
  | PInf a, PInf b => Bool.eqb a b
  | PNaN, PNaN => false          (* nan != nan *)
  | _, _ => false
  end.

Definition code (c : ascii) : nat := nat_of_ascii c.

Definition is_digit (c : ascii) : bool := (48 <=? code c)%nat && (code c <=? 57)%nat.

(** [Py_ISSPACE] together with the characters that
    [_PyUnicode_TransformDecimalAndSpaceToASCII] maps to a space. *)
Definition is_py_space (c : ascii) : bool :=
  ((9 <=? code c)%nat && (code c <=? 13)%nat) ||
  ((28 <=? code c)%nat && (code c <=? 32)%nat).

Fixpoint drop_spaces (l : list ascii) : list ascii :=
  match l with
  | c :: t => if is_py_space c then drop_spaces t else l
  | [] => []
  end.

Definition strip_spaces (l : list ascii) : list ascii :=
  rev (drop_spaces (rev (drop_spaces l))).

(** The loop of [_Py_string_to_number_with_underscores]; [prev] starts
    as NUL. *)
Fixpoint strip_underscores (prev : ascii) (l : list ascii) : option (list ascii) :=
  match l with
  | [] => if Ascii.eqb prev "_" then None else Some []
  | c :: t =>
      if Ascii.eqb c "_" then
        if is_digit prev then strip_underscores c t else None
      else if Ascii.eqb prev "_" && negb (is_digit c) then None
      else option_map (cons c) (strip_underscores c t)
  end.

Fixpoint span_digits (l : list ascii) : list ascii * list ascii :=
  match l with
  | c :: t =>
      if is_digit c then let '(d, r) := span_digits t in (c :: d, r)
      else ([], l)
  | [] => ([], [])
  end.

Definition read_sign (l : list ascii) : bool * list ascii :=
  match l with
  | "-"%char :: t => (true, t)
  | "+"%char :: t => (false, t)
  | _ => (false, l)
  end.

Fixpoint digits_value (acc : Z) (l : list ascii) : Z :=
  match l with
  | c :: t => digits_value (10 * acc + Z.of_nat (code c - 48)) t
  | [] => acc
  end.

(** [m * 10^e] as a reduced rational. *)
Definition decimal_value (neg : bool) (m e : Z) : Q :=
  let sm := if neg then - m else m in
  Qred (if 0 <=? e then inject_Z (sm * 10 ^ e) else sm # Z.to_pos (10 ^ (- e))).

Definition parse_decimal (l : list ascii) : option pyfloat :=
  let '(neg, l1) := read_sign l in
  let '(ip, l2) := span_digits l1 in
  let '(fp, l3) :=
    match l2 with
    | "."%char :: r => span_digits r
    | _ => ([], l2)
    end in
  match app ip fp with
  | [] => None
  | mant =>
      let m := digits_value 0 mant in
      let k := Z.of_nat (List.length fp) in
      match l3 with
      | [] => Some (PFin (decimal_value neg m (- k)))
      | e :: r =>
          if Ascii.eqb e "e" || Ascii.eqb e "E" then
            let '(eneg, r1) := read_sign r in
            let '(ed, r2) := span_digits r1 in
            match ed, r2 with
            | _ :: _, [] =>
                let x := digits_value 0 ed in
                Some (PFin (decimal_value neg m ((if eneg then - x else x) - k)))
            | _, _ => None
            end
          else None
      end
  end.

Definition lower (c : ascii) : ascii :=
  if (65 <=? code c)%nat && (code c <=? 90)%nat then ascii_of_nat (code c + 32) else c.

Definition parse_inf_or_nan (l : list ascii) : option pyfloat :=
  let '(neg, l1) := read_sign l in
  let w := string_of_list_ascii (map lower l1) in
  if String.eqb w "inf" || String.eqb w "infinity" then Some (PInf neg)
  else if String.eqb w "nan" then Some PNaN
  else None.

Definition float_inner (l : list ascii) : option pyfloat :=
  let l' := strip_spaces l in
  match parse_decimal l' with
  | Some v => Some v
  | None => parse_inf_or_nan l'
  end.

(** [float(s)]; [None] is the [ValueError]. *)
Definition py_float (s : string) : option pyfloat :=
  let l := list_ascii_of_string s in
  if existsb (Ascii.eqb "_") l then
    match strip_underscores zero l with
    | Some l' => float_inner l'
    | None => None
    end
  else float_inner l.

(** No proper suffix of [old] followed by [old] starts with [old]:
    an occurrence of [old] cannot overlap a trailing one. *)
Definition border_free (old : string) : Prop :=
  forall t, t <> EmptyString -> (String.length t < String.length old)%nat ->
  String.prefix old (t ++ old) = false.

End PyStr.

(* ------------------------------------------------------------------ *)
(** ** Bytes, numpy int64 buffers and numpy's reshape *)

Module Frame.

Definition bytes := list Byte.byte.

Definition byte_val (b : Byte.byte) : Z := Z.of_N (Byte.to_N b).

(** The low 8 bits of a machine integer as a byte. *)
Definition byte_of_Z (z : Z) : Byte.byte :=
  match Byte.of_N (Z.to_N (Z.land z 255)) with
  | Some b => b
  | None => Byte.x00
  end.

(** [np.array([z], dtype=np.int64).tobytes()] on a little-endian host:
    the [k] low-order bytes of the two's-complement representation. *)
Fixpoint le_bytes (k : nat) (z : Z) : bytes :=
  match k with
  | O => []
  | S k' => byte_of_Z z :: le_bytes k' (Z.shiftr z 8)
  end.

Definition int64_tobytes (z : Z) : bytes := le_bytes 8 z.

Fixpoint le_unsigned (bs : bytes) : Z :=
  match bs with
  | [] => 0
  | b :: t => byte_val b + 256 * le_unsigned t
  end.

(** One int64 read from eight little-endian bytes. *)
Definition int64_of_le (bs : bytes) : Z :=
  let u := le_unsigned bs in
  if 2 ^ 63 <=? u then u - 2 ^ 64 else u.

(** [np.frombuffer(bs, dtype=np.int64)]: [ValueError] ([None]) unless the
    length is a multiple of 8; an empty buffer gives an empty array. *)
Fixpoint frombuffer_int64 (bs : bytes) : option (list Z) :=
  match bs with
  | [] => Some []
  | b0 :: b1 :: b2 :: b3 :: b4 :: b5 :: b6 :: b7 :: rest =>
      match frombuffer_int64 rest with
      | Some t => Some (int64_of_le [b0; b1; b2; b3; b4; b5; b6; b7] :: t)
      | None => None
      end
  | _ => None
  end.

Definition NPY_MAX_INTP : Z := 2 ^ 63 - 1.

(** The loop of numpy's [_fix_unknown_dimension]: a negative entry marks
    the (single) unknown dimension, the others are multiplied into
    [s_known] with [npy_mul_sizes_with_overflow]. *)
Fixpoint scan_dims (dims : list Z) (i : nat) (i_unknown : option nat) (s_known : Z)
  : option (option nat * Z) :=
  match dims with
  | [] => Some (i_unknown, s_known)
  | d :: t =>
      if d <? 0 then
        match i_unknown with
        | None => scan_dims t (S i) (Some i) s_known
        | Some _ => None                         (* one unknown dimension only *)
        end
      else if NPY_MAX_INTP <? s_known * d then None   (* size mismatch *)
      else scan_dims t (S i) i_unknown (s_known * d)
  end.

Fixpoint list_set (l : list Z) (n : nat) (v : Z) : list Z :=
  match l, n with
  | [], _ => []
  | _ :: t, O => v :: t
  | x :: t, S n' => x :: list_set t n' v
  end.

(** [arr.reshape(dims)] for an array of [s_original] elements: the
    resulting shape, or [None] for the [ValueError]. *)
Definition np_reshape (s_original : Z) (dims : list Z) : option (list Z) :=
  match scan_dims dims 0 None 1 with
  | None => None
  | Some (Some iu, s_known) =>
      if (s_known =? 0) || negb (Z.modulo s_original s_known =? 0) then None
      else Some (list_set dims iu (s_original / s_known))
  | Some (None, s_known) =>
      if s_original =? s_known then Some dims else None
  end.

(** A C-contiguous uint8 ndarray: its shape and its bytes in row-major
    order. *)
Record ndarray := mk_ndarray { nd_shape : list Z; nd_data : bytes }.

(** Numpy's own check when an array of this shape is created
    ([PyArray_NewFromDescr_int] with a one-byte dtype): no negative
    extent, and the product of the non-zero extents fits in [npy_intp]. *)
Fixpoint nonzero_product (dims : list Z) : Z :=
  match dims with
  | [] => 1
  | d :: t => (if d =? 0 then 1 else d) * nonzero_product t
  end.

Definition shape_creatable (dims : list Z) : Prop :=
  Forall (fun d => 0 <= d) dims /\ nonzero_product dims <= NPY_MAX_INTP.

Definition product (dims : list Z) : Z := fold_right Z.mul 1 dims.

(** A well-formed array: a creatable shape whose element count is the
    length of the data. *)
Definition ndarray_wf (a : ndarray) : Prop :=
  shape_creatable a.(nd_shape) /\
  Z.of_nat (List.length a.(nd_data)) = product a.(nd_shape).

(** [create_empty_segmentation] (client.py): the int64 shape header
    followed by [data.tobytes()]. *)
Definition encode_frame (a : ndarray) : bytes :=
  flat_map int64_tobytes a.(nd_shape) ++ a.(nd_data).

(** The decode on the PUT path of [_handle_segmentation]:
    [shape = np.frombuffer(blob[:24], dtype=np.int64)] then
    [np.frombuffer(blob[24:], dtype=np.uint8).reshape(shape)].
    [None] is the [ValueError] raised by numpy. *)
Definition decode_frame (blob : bytes) : option ndarray :=
  match frombuffer_int64 (firstn 24 blob) with
  | None => None
  | Some shape =>
      let data := skipn 24 blob in
      match np_reshape (Z.of_nat (List.length data)) shape with
      | None => None
      | Some dims => Some (mk_ndarray dims data)
      end
  end.

End Frame.

(* ------------------------------------------------------------------ *)
(** ** The server *)

Module Server.
Import PyStr Frame.
Open Scope string_scope.
Open Scope Z_scope.

(** The route is registered for GET, HEAD and PUT only. *)
Inductive Method := GET | HEAD | PUT.

Definition method_eqb (a b : Method) : bool :=
  match a, b with
  | GET, GET | HEAD, HEAD | PUT, PUT => true
  | _, _ => false
  end.

(** A request as the handlers see it: the method, the [{path:path}]
    parameter (the URL path without its leading slash) and the raw body. *)
Record Request := mk_request { method : Method; req_path : string; req_body : bytes }.

(** [Response(content, status_code=...)]; [rbody = None] is a response
    built without content. *)
Record Response := mk_response { status : Z; rbody : option bytes }.

Definition resp (code : Z) : Response := mk_response code None.

(** Python exceptions, as far as the handlers distinguish them. *)
Inductive exn := KeyError | ValueError | OtherError.

Inductive res (A : Type) :=
| Ok (a : A)
| Err (e : exn).
Arguments Ok {A} a.
Arguments Err {A} e.

(** The copick objects the handlers use.  Lookups are pure; the chunk-store
    accesses, the pick-set writes, the JSON body parse and the
    segmentation writer of [copick_utils] may raise. *)
Class Backend := {
  World : Type;
  Run : Type;
  VoxelSpacing : Type;
  Tomogram : Type;
  Picks : Type;
  PicksFile : Type;
  Segmentation : Type;
  (** [root.get_run(name)] *)
  root_get_run : World -> string -> option Run;
  (** [run.get_voxel_spacing(v)] *)
  run_get_voxel_spacing : World -> Run -> pyfloat -> option VoxelSpacing;
  (** [vs.get_tomogram(tomo_type)] *)
  vs_get_tomogram : World -> VoxelSpacing -> string -> option Tomogram;
  (** [tomogram.read_only] *)
  tomo_read_only : World -> Tomogram -> bool;
  (** [tomogram.zarr()[key]] and [tomogram.zarr()[key] = blob] *)
  tomo_zarr_get : World -> Tomogram -> string -> res bytes;
  tomo_zarr_set : World -> Tomogram -> string -> bytes -> res World;
  (** [run.new_picks(object_name=, user_id=, session_id=)] *)
  run_new_picks : World -> Run -> string -> string -> string -> res (Picks * World);
  (** [await request.json()] followed by [CopickPicksFile] applied to the parsed keyword arguments *)
  picks_file_of_body : bytes -> res PicksFile;
  (** [picks.meta = m] and [picks.store()] *)
  picks_set_meta : World -> Picks -> PicksFile -> World;
  picks_store : World -> Picks -> res World;
  (** [run.get_picks(object_name=, user_id=, session_id=)] *)
  run_get_picks : World -> Run -> string -> string -> string -> list Picks;
  (** [json.dumps(picks.meta.dict())] *)
  picks_meta_json : World -> Picks -> res bytes;
  (** [run.get_segmentations(voxel_size=, name=, user_id=, session_id=,
      is_multilabel=)] *)
  run_get_segmentations :
    World -> Run -> pyfloat -> string -> string -> string -> bool -> list Segmentation;
  (** [seg.zarr()[key]] *)
  seg_zarr_get : World -> Segmentation -> string -> res bytes;
  (** [copick_utils.writers.write.segmentation(run=, segmentation_volume=,
      user_id=, name=, session_id=, voxel_size=, multilabel=)] *)
  write_segmentation :
    World -> Run -> ndarray -> string -> string -> string -> pyfloat -> bool -> res World;
}.

Section Handlers.
Context {B : Backend}.

(** Every call into the backend, with its arguments. *)
Inductive Event :=
| EvGetRun (name : string)
| EvGetVoxelSpacing (voxel_spacing : pyfloat)
| EvGetTomogram (tomo_type : string)
| EvTomoZarrGet (key : string)
| EvTomoZarrSet (key : string) (blob : bytes)
| EvNewPicks (object_name user_id session_id : string)
| EvSetPicksMeta
| EvStorePicks
| EvGetPicks (object_name user_id session_id : string)
| EvPicksJson
| EvGetSegmentations (voxel_size : pyfloat) (name user_id session_id : string)
    (is_multilabel : bool)
| EvSegZarrGet (key : string)
| EvWriteSegmentation (run : Run) (volume : ndarray) (user_id name session_id : string)
    (voxel_size : pyfloat) (multilabel : bool).

Record Cfg := mk_cfg { world : World; log : list Event }.

(** State and exceptions: the result of a step and the configuration it
    leaves, also when it raises. *)
Definition M (A : Type) : Type := Cfg -> res A * Cfg.

Definition ret {A} (a : A) : M A := fun c => (Ok a, c).

Definition bind {A C} (m : M A) (k : A -> M C) : M C :=
  fun c => match m c with
           | (Ok a, c') => k a c'
           | (Err e, c') => (Err e, c')
           end.

Definition raise {A} (e : exn) : M A := fun c => (Err e, c).

(** [try: m except E as e: h(e)]; [h] re-raises what it does not catch. *)
Definition try_except {A} (m : M A) (h : exn -> M A) : M A :=
  fun c => match m c with
           | (Err e, c') => h e c'
           | r => r
           end.

Definition emit (ev : Event) : M unit :=
  fun c => (Ok tt, mk_cfg c.(world) (c.(log) ++ [ev])).

Definition get_world : M World := fun c => (Ok c.(world), c).

Definition put_world (w : World) : M unit := fun c => (Ok tt, mk_cfg w c.(log)).

Definition lift_res {A} (r : res A) : M A :=
  match r with
  | Ok a => ret a
  | Err e => raise e
  end.

(** A Python call that raises [e] where the model returns [None]. *)
Definition lift_opt {A} (e : exn) (o : option A) : M A :=
  match o with
  | Some a => ret a
  | None => raise e
  end.

End Handlers.

Notation "x <- m ;; k" := (bind m (fun x => k))
  (at level 61, m at next level, right associativity).
Notation "m ;; k" := (bind m (fun _ => k))
  (at level 61, right associativity).

Section Calls.
Context {B : Backend}.

Definition get_run (name : string) : M (option Run) :=
  emit (EvGetRun name) ;; w <- get_world ;; ret (root_get_run w name).

Definition get_voxel_spacing (run : Run) (v : pyfloat) : M (option VoxelSpacing) :=
  emit (EvGetVoxelSpacing v) ;; w <- get_world ;; ret (run_get_voxel_spacing w run v).

Definition get_tomogram (vs : VoxelSpacing) (t : string) : M (option Tomogram) :=
  emit (EvGetTomogram t) ;; w <- get_world ;; ret (vs_get_tomogram w vs t).

Definition read_only (t : Tomogram) : M bool :=
  w <- get_world ;; ret (tomo_read_only w t).

Definition tomo_get (t : Tomogram) (key : string) : M bytes :=
  emit (EvTomoZarrGet key) ;; w <- get_world ;; lift_res (tomo_zarr_get w t key).

Definition tomo_set (t : Tomogram) (key : string) (blob : bytes) : M unit :=
  emit (EvTomoZarrSet key blob) ;; w <- get_world ;;
  w' <- lift_res (tomo_zarr_set w t key blob) ;; put_world w'.

Definition new_picks (run : Run) (object_name user_id session_id : string) : M Picks :=
  emit (EvNewPicks object_name user_id session_id) ;; w <- get_world ;;
  pw <- lift_res (run_new_picks w run object_name user_id session_id) ;;
  put_world (snd pw) ;; ret (fst pw).

Definition set_meta (p : Picks) (m : PicksFile) : M unit :=
  emit EvSetPicksMeta ;; w <- get_world ;; put_world (picks_set_meta w p m).

Definition store (p : Picks) : M unit :=
  emit EvStorePicks ;; w <- get_world ;; w' <- lift_res (picks_store w p) ;; put_world w'.

Definition get_picks (run : Run) (object_name user_id session_id : string) : M (list Picks) :=
  emit (EvGetPicks object_name user_id session_id) ;; w <- get_world ;;
  ret (run_get_picks w run object_name user_id session_id).

Definition picks_json (p : Picks) : M bytes :=
  emit EvPicksJson ;; w <- get_world ;; lift_res (picks_meta_json w p).

Definition get_segmentations (run : Run) (v : pyfloat) (name user_id session_id : string)
    (ml : bool) : M (list Segmentation) :=
  emit (EvGetSegmentations v name user_id session_id ml) ;; w <- get_world ;;
  ret (run_get_segmentations w run v name user_id session_id ml).

Definition seg_get (s : Segmentation) (key : string) : M bytes :=
  emit (EvSegZarrGet key) ;; w <- get_world ;; lift_res (seg_zarr_get w s key).

Definition write_seg (run : Run) (data : ndarray) (user_id name session_id : string)
    (v : pyfloat) (ml : bool) : M unit :=
  emit (EvWriteSegmentation run data user_id name session_id v ml) ;; w <- get_world ;;
  w' <- lift_res (write_segmentation w run data user_id name session_id v ml) ;;
  put_world w'.

End Calls.

Section Routes.
Context {B : Backend}.

Definition is_method (req : Request) (m : Method) : bool := method_eqb req.(method) m.

(** [CopickRoute._handle_tomogram] *)
Definition handle_tomogram (req : Request) (run : Run) (path : string) : M Response :=
  let parts := py_split "/" path in
  if (List.length parts <? 2)%nat then ret (resp 404) else
  let vs_str := py_replace "VoxelSpacing" "" (nth 0 parts "") in
  match py_float vs_str with
  | None => ret (resp 404)                       (* except ValueError *)
  | Some voxel_spacing =>
      let tomo_type := py_replace ".zarr" "" (nth 1 parts "") in
      vs <- get_voxel_spacing run voxel_spacing ;;
      match vs with
      | None => ret (resp 404)
      | Some vs =>
          tomogram <- get_tomogram vs tomo_type ;;
          match tomogram with
          | None => ret (resp 404)
          | Some tomogram =>
              ro <- read_only tomogram ;;
              let key := py_join "/" (skipn 2 parts) in
              if is_method req PUT && negb ro then
                try_except
                  (tomo_set tomogram key req.(req_body) ;; ret (resp 200))
                  (fun _ => ret (resp 500))
              else
                try_except
                  (body <- tomo_get tomogram key ;;
                   let body := if is_method req HEAD then None else Some body in
                   ret (mk_response 200 body))
                  (fun e => match e with
                            | KeyError => ret (resp 404)
                            | _ => raise e
                            end)
          end
      end
  end.

(** [CopickRoute._handle_picks] *)
Definition handle_picks (req : Request) (run : Run) (path : string) : M Response :=
  let parts := py_split "/" path in
  if (List.length parts <? 1)%nat then ret (resp 404) else
  let pick_file := nth 0 parts "" in
  let pick_parts := py_split "_" pick_file in
  if negb (List.length pick_parts =? 3)%nat then ret (resp 404) else
  let user_id := nth 0 pick_parts "" in
  let session_id := nth 1 pick_parts "" in
  let object_name := py_replace ".json" "" (nth 2 pick_parts "") in
  if is_method req PUT then
    try_except
      (picks <- new_picks run object_name user_id session_id ;;
       data <- lift_res (picks_file_of_body req.(req_body)) ;;
       set_meta picks data ;;
       store picks ;;
       ret (resp 200))
      (fun _ => ret (resp 500))
  else
    picks <- get_picks run object_name user_id session_id ;;
    match picks with
    | [] => ret (resp 404)
    | p :: _ =>
        if is_method req HEAD then ret (resp 200) else
        js <- picks_json p ;;
        ret (mk_response 200 (Some js))
    end.

(** [CopickRoute._handle_segmentation] *)
Definition handle_segmentation (req : Request) (run : Run) (path : string) : M Response :=
  let parts := py_split "/" path in
  if (List.length parts <? 1)%nat then ret (resp 404) else
  let seg_file := py_replace ".zarr" "" (nth 0 parts "") in
  let seg_parts := py_split "_" seg_file in
  if (List.length seg_parts <? 4)%nat then ret (resp 404) else
  voxel_size <- lift_opt ValueError (py_float (nth 0 seg_parts "")) ;;
  let user_id := nth 1 seg_parts "" in
  let session_id := nth 2 seg_parts "" in
  let name := py_join "_" (skipn 3 seg_parts) in
  let is_multilabel := py_contains "multilabel" name in
  if is_method req PUT then
    try_except
      (let blob := req.(req_body) in
       data <- lift_opt ValueError (decode_frame blob) ;;
       write_seg run data user_id (py_replace "-multilabel" "" name) session_id
         voxel_size is_multilabel ;;
       ret (resp 200))
      (fun _ => ret (resp 500))
  else
    segs <- get_segmentations run voxel_size (py_replace "-multilabel" "" name)
              user_id session_id is_multilabel ;;
    match segs with
    | [] => ret (resp 404)
    | seg :: _ =>
        try_except
          (body <- seg_get seg (py_join "/" (skipn 1 parts)) ;;
           let body := if is_method req HEAD then None else Some body in
           ret (mk_response 200 body))
          (fun e => match e with
                    | KeyError => ret (resp 404)
                    | _ => raise e
                    end)
    end.

(** [CopickRoute.handle_request]: every exception becomes a 500. *)
Definition handle_request (req : Request) : M Response :=
  try_except
    (let path_parts := py_split "/" req.(req_path) in
     if (3 <=? List.length path_parts)%nat then
       let run_name := nth 0 path_parts "" in
       let data_type := nth 1 path_parts "" in
       run <- get_run run_name ;;
       match run with
       | None => ret (resp 404)
       | Some run =>
           let sub := py_join "/" (skipn 2 path_parts) in
           if String.eqb data_type "Tomograms" then handle_tomogram req run sub
           else if String.eqb data_type "Picks" then handle_picks req run sub
           else if String.eqb data_type "Segmentations" then handle_segmentation req run sub
           else ret (resp 404)
       end
     else ret (resp 404))
    (fun _ => ret (resp 500)).

(** One request against a backend state, starting from an empty log. *)
Definition serve (w : World) (req : Request) : res Response * Cfg :=
  handle_request req (mk_cfg w []).

End Routes.

End Server.

(* ------------------------------------------------------------------ *)
(** ** A concrete in-memory backend *)

Module Demo.
Import PyStr Frame Server.
Open Scope string_scope.

Record TomoRec := mk_tomo {
  t_run : string; t_vs : pyfloat; t_type : string; t_read_only : bool;
  t_chunks : list (string * bytes) }.

(** [p_meta = None] is a stored pick file that cannot be loaded. *)
Record PicksRec := mk_picks {
  p_run : string; p_object : string; p_user : string; p_session : string;
  p_meta : option bytes }.

Record SegRec := mk_seg {
  s_run : string; s_vs : pyfloat; s_name : string; s_user : string;
  s_session : string; s_multilabel : bool; s_volume : ndarray;
  s_chunks : list (string * bytes) }.

Record DWorld := mk_world {
  d_runs : list string; d_tomos : list TomoRec; d_picks : list PicksRec;
  d_segs : list SegRec }.

Fixpoint assoc (k : string) (l : list (string * bytes)) : option bytes :=
  match l with
  | [] => None
  | (k', v) :: t => if String.eqb k k' then Some v else assoc k t
  end.

Fixpoint find_index {A} (f : A -> bool) (l : list A) : option nat :=
  match l with
  | [] => None
  | x :: t => if f x then Some O else option_map S (find_index f t)
  end.

Fixpoint indices_from {A} (f : A -> bool) (l : list A) (i : nat) : list nat :=
  match l with
  | [] => []
  | x :: t => if f x then i :: indices_from f t (S i) else indices_from f t (S i)
  end.

Fixpoint update_nth {A} (n : nat) (f : A -> A) (l : list A) : list A :=
  match l, n with
  | [], _ => []
  | x :: t, O => f x :: t
  | x :: t, S n' => x :: update_nth n' f t
  end.

Definition chunk_get (chunks : option (list (string * bytes))) (key : string) : res bytes :=
  match chunks with
  | None => Err OtherError
  | Some cs =>
      match assoc key cs with
      | Some b => Ok b
      | None => Err KeyError
      end
  end.

Definition set_tomos (w : DWorld) (ts : list TomoRec) : DWorld :=
  mk_world w.(d_runs) ts w.(d_picks) w.(d_segs).
Definition set_picks (w : DWorld) (ps : list PicksRec) : DWorld :=
  mk_world w.(d_runs) w.(d_tomos) ps w.(d_segs).
Definition set_segs (w : DWorld) (ss : list SegRec) : DWorld :=
  mk_world w.(d_runs) w.(d_tomos) w.(d_picks) ss.

Definition tomo_matches (r : string) (v : pyfloat) (ty : string) (t : TomoRec) : bool :=
  String.eqb t.(t_run) r && pyfloat_eqb t.(t_vs) v && String.eqb t.(t_type) ty.

Definition picks_matches (r o u s : string) (p : PicksRec) : bool :=
  String.eqb p.(p_run) r && String.eqb p.(p_object) o && String.eqb p.(p_user) u &&
  String.eqb p.(p_session) s.

Definition seg_matches (r : string) (v : pyfloat) (n u s : string) (ml : bool) (g : SegRec)
  : bool :=
  String.eqb g.(s_run) r && pyfloat_eqb g.(s_vs) v && String.eqb g.(s_name) n &&
  String.eqb g.(s_user) u && String.eqb g.(s_session) s && Bool.eqb g.(s_multilabel) ml.

#[export] Instance demo_backend : Backend := {
  World := DWorld;
  Run := string;
  VoxelSpacing := string * pyfloat;
  Tomogram := nat;
  Picks := nat;
  PicksFile := bytes;
  Segmentation := nat;
  root_get_run w n := if existsb (String.eqb n) w.(d_runs) then Some n else None;
  run_get_voxel_spacing w r v :=
    if existsb (fun t => String.eqb t.(t_run) r && pyfloat_eqb t.(t_vs) v) w.(d_tomos)
    then Some (r, v) else None;
  vs_get_tomogram w vs ty := find_index (tomo_matches (fst vs) (snd vs) ty) w.(d_tomos);
  tomo_read_only w i :=
    match nth_error w.(d_tomos) i with Some t => t.(t_read_only) | None => false end;
  tomo_zarr_get w i key := chunk_get (option_map t_chunks (nth_error w.(d_tomos) i)) key;
  tomo_zarr_set w i key blob :=
    Ok (set_tomos w (update_nth i (fun t =>
          mk_tomo t.(t_run) t.(t_vs) t.(t_type) t.(t_read_only) ((key, blob) :: t.(t_chunks)))
          w.(d_tomos)));
  run_new_picks w r o u s :=
    Ok (List.length w.(d_picks), set_picks w (w.(d_picks) ++ [mk_picks r o u s (Some [])]));
  picks_file_of_body b := match b with [] => Err ValueError | _ => Ok b end;
  picks_set_meta w i m :=
    set_picks w (update_nth i (fun p =>
      mk_picks p.(p_run) p.(p_object) p.(p_user) p.(p_session) (Some m)) w.(d_picks));
  picks_store w i := Ok w;
  run_get_picks w r o u s := indices_from (picks_matches r o u s) w.(d_picks) O;
  picks_meta_json w i :=
    match nth_error w.(d_picks) i with
    | Some p => match p.(p_meta) with Some m => Ok m | None => Err OtherError end
    | None => Err OtherError
    end;
  run_get_segmentations w r v n u s ml := indices_from (seg_matches r v n u s ml) w.(d_segs) O;
  seg_zarr_get w i key := chunk_get (option_map s_chunks (nth_error w.(d_segs) i)) key;
  write_segmentation w r data u n s v ml :=
    Ok (set_segs w (w.(d_segs) ++ [mk_seg r v n u s ml data []]));
}.

Definition ten : pyfloat := PFin (10 # 1).

(** Run [r] with two tomograms at spacing 10 (a read-only [wbp] holding
    chunk [0], and a writable [ab]) and one stored pick set of
    [alice/s1/ribosome] whose file cannot be loaded. *)
Definition demo_world : DWorld :=
  mk_world ["r"]
    [mk_tomo "r" ten "wbp" true [("0", [Byte.x2a])];
     mk_tomo "r" ten "ab" false []]
    [mk_picks "r" "ribosome" "alice" "s1" None]
    [].

End Demo.

(* ------------------------------------------------------------------ *)
(** ** The client *)

(** [copick_server/client.py]: [create_empty_segmentation] reads the
    shape of the [wbp] tomogram through a zarr store over HTTP, then PUTs
    an all-zero segmentation of that shape.  URLs are written as the
    server's [{path:path}] parameter sees them ([base_url] being the
    server's root); the voxel size enters as the text [f"{voxel_size}"]
    gives for it. *)
Module Client.
Import PyStr Frame Server.
Open Scope string_scope.
Open Scope Z_scope.

Definition creatableb (dims : list Z) : bool :=
  forallb (fun d => 0 <=? d) dims && (nonzero_product dims <=? NPY_MAX_INTP).

(** [np.zeros(full_shape, dtype=np.uint8)] (already C-contiguous, so
    [np.ascontiguousarray] keeps it); [None] is numpy's [ValueError] for
    a negative or too large shape. *)
Definition np_zeros (shape : list Z) : option ndarray :=
  if creatableb shape
  then Some (mk_ndarray shape (repeat Byte.x00 (Z.to_nat (product shape))))
  else None.

(** [seg_filename] as [create_empty_segmentation] builds it. *)
Definition seg_filename (voxel_size user_id session_id name : string) (is_multilabel : bool)
  : string :=
  let f := voxel_size ++ "_" ++ user_id ++ "_" ++ session_id ++ "_" ++ name in
  let f := if is_multilabel then f ++ "-multilabel" else f in
  f ++ ".zarr".

(** The store the tomogram is opened from:
    [f"{base_url}/{run_name}/Tomograms/VoxelSpacing{voxel_size}/wbp.zarr"]. *)
Definition tomogram_store (run_name voxel_size : string) : string :=
  run_name ++ "/Tomograms/VoxelSpacing" ++ voxel_size ++ "/wbp.zarr".

(** fsspec's mapper fetches key [k] of a store rooted at [root] with a GET
    of [root/k]. *)
Definition store_key_request (root key : string) : Request :=
  mk_request GET (root ++ "/" ++ key) [].

(** The PUT [create_empty_segmentation] sends, given [full_shape], the
    shape of [tomo["0"]]; [None] when [np.zeros] raises. *)
Definition segmentation_put (run_name voxel_size user_id session_id name : string)
    (is_multilabel : bool) (full_shape : list Z) : option Request :=
  match np_zeros full_shape with
  | None => None
  | Some data =>
      let shape_header := flat_map int64_tobytes data.(nd_shape) in
      let data_bytes := app shape_header data.(nd_data) in
      let url := run_name ++ "/Segmentations/" ++
                 seg_filename voxel_size user_id session_id name is_multilabel in
      Some (mk_request PUT url data_bytes)
  end.

End Client.

(* ------------------------------------------------------------------ *)
(** ** The entry points *)

(** [create_copick_app], [serve_copick] and the [serve] command of
    [server.py], up to the app handed to [uvicorn.run]. *)
Module Cli.
Import Server.
Open Scope string_scope.









End Cli.

(* ------------------------------------------------------------------ *)
(** ** The spec's reading of the tomogram type *)

(** The spec's words, for comparison with [_handle_tomogram]: the type is
    the segment with a trailing [.zarr] suffix cut off. *)
Module SpecSide.
Import PyStr.
Open Scope string_scope.

Definition strip_zarr_suffix (s : string) : string :=
  let n := String.length s in
  if (5 <=? n)%nat && String.eqb (substring (n - 5) 5 s) ".zarr"
  then substring 0 (n - 5) s else s.

End SpecSide.

(* ================================================================== *)
(** * Properties *)

(* ------------------------------------------------------------------ *)
(** ** The segmentation frame *)

Module FrameFacts.
Import Frame.

Lemma byte_val_of_Z (z : Z) : byte_val (byte_of_Z z) = z mod 256.
Proof.
  unfold byte_val, byte_of_Z.
  change 255 with (Z.ones 8). rewrite Z.land_ones by lia.
  change (2 ^ 8) with 256.
  assert (Hr : 0 <= z mod 256 < 256) by (apply Z.mod_pos_bound; lia).
  destruct (Byte.of_N (Z.to_N (z mod 256))) as [b|] eqn:E.
  - apply Byte.to_of_N in E. rewrite E. apply Z2N.id. lia.
  - apply Byte.of_N_None_iff in E. lia.
Qed.

Lemma le_unsigned_le_bytes (k : nat) (z : Z) :
  le_unsigned (le_bytes k z) = z mod 2 ^ (8 * Z.of_nat k).
Proof.
  revert z; induction k as [|k IH]; intros z.
  - simpl. rewrite Z.mod_1_r. reflexivity.
  - cbn [le_bytes le_unsigned]. rewrite byte_val_of_Z, IH.
    rewrite Z.shiftr_div_pow2 by lia.
    replace (8 * Z.of_nat (S k)) with (8 + 8 * Z.of_nat k) by lia.
    rewrite Z.pow_add_r by lia.
    rewrite Z.rem_mul_r by (try apply Z.pow_pos_nonneg; lia).
    reflexivity.
Qed.

Lemma int64_roundtrip (z : Z) :
  0 <= z < 2 ^ 63 -> int64_of_le (int64_tobytes z) = z.
Proof.
  intros Hz. unfold int64_of_le, int64_tobytes.
  rewrite le_unsigned_le_bytes. change (8 * Z.of_nat 8) with 64.
  rewrite Z.mod_small by lia.
  destruct (2 ^ 63 <=? z) eqn:E; [apply Z.leb_le in E; lia | reflexivity].
Qed.

Lemma int64_tobytes_length (z : Z) : List.length (int64_tobytes z) = 8%nat.
Proof. reflexivity. Qed.

Lemma frombuffer_three (a b c : Z) :
  frombuffer_int64 (int64_tobytes a ++ int64_tobytes b ++ int64_tobytes c) =
  Some [int64_of_le (int64_tobytes a); int64_of_le (int64_tobytes b);
        int64_of_le (int64_tobytes c)].
Proof. reflexivity. Qed.

(** The non-zero extents bound every prefix product of a creatable shape. *)
Lemma creatable_prefix_products (d0 d1 d2 : Z) :
  shape_creatable [d0; d1; d2] ->
  0 <= d0 <= NPY_MAX_INTP /\ 0 <= d1 /\ 0 <= d2 /\
  d0 * d1 <= NPY_MAX_INTP /\ d0 * d1 * d2 <= NPY_MAX_INTP.
Proof.
  intros [Hf Hp]. inversion Hf as [|? ? H0 Hf1]; subst.
  inversion Hf1 as [|? ? H1 Hf2]; subst. inversion Hf2 as [|? ? H2 _]; subst.
  unfold nonzero_product in Hp. unfold NPY_MAX_INTP in *.
  destruct (Z.eqb_spec d0 0), (Z.eqb_spec d1 0), (Z.eqb_spec d2 0); subst;
    repeat split; nia.
Qed.

Lemma np_reshape_three (d0 d1 d2 : Z) :
  shape_creatable [d0; d1; d2] ->
  np_reshape (d0 * d1 * d2) [d0; d1; d2] = Some [d0; d1; d2].
Proof.
  intros Hc. destruct (creatable_prefix_products _ _ _ Hc) as (H0 & H1 & H2 & H01 & H012).
  unfold np_reshape, scan_dims.
  destruct (d0 <? 0) eqn:E0; [apply Z.ltb_lt in E0; lia|].
  destruct (NPY_MAX_INTP <? 1 * d0) eqn:E0'; [apply Z.ltb_lt in E0'; lia|].
  destruct (d1 <? 0) eqn:E1; [apply Z.ltb_lt in E1; lia|].
  destruct (NPY_MAX_INTP <? 1 * d0 * d1) eqn:E1'; [apply Z.ltb_lt in E1'; lia|].
  destruct (d2 <? 0) eqn:E2; [apply Z.ltb_lt in E2; lia|].
  destruct (NPY_MAX_INTP <? 1 * d0 * d1 * d2) eqn:E2'; [apply Z.ltb_lt in E2'; lia|].
  rewrite !Z.mul_1_l, Z.eqb_refl. reflexivity.
Qed.

Lemma firstn_skipn_24 (h data : bytes) :
  List.length h = 24%nat -> firstn 24 (h ++ data) = h /\ skipn 24 (h ++ data) = data.
Proof.
  intros Hl. rewrite <- Hl. split.
  - rewrite firstn_app, Nat.sub_diag, firstn_O, app_nil_r, firstn_all. reflexivity.
  - rewrite skipn_app, Nat.sub_diag, skipn_O, skipn_all. reflexivity.
Qed.

(** C1: decoding the frame [create_empty_segmentation] builds for a 3-D
    uint8 array (the int64 shape header, then the bytes in row-major order)
    gives back the same shape and the same bytes. *)
Theorem decode_encode_frame (d0 d1 d2 : Z) (data : bytes) :
  shape_creatable [d0; d1; d2] ->
  Z.of_nat (List.length data) = d0 * d1 * d2 ->
  decode_frame (encode_frame (mk_ndarray [d0; d1; d2] data)) =
  Some (mk_ndarray [d0; d1; d2] data).
Proof.
  intros Hc Hlen.
  destruct (creatable_prefix_products _ _ _ Hc) as (H0 & H1 & H2 & H01 & H012).
  assert (B : forall d, 0 <= d <= NPY_MAX_INTP -> 0 <= d < 2 ^ 63)
    by (unfold NPY_MAX_INTP; intros; lia).
  assert (B1 : 0 <= d1 <= NPY_MAX_INTP).
  { split; [lia|]. destruct Hc as [_ Hp]. unfold nonzero_product in Hp; simpl in Hp.
    destruct (Z.eqb_spec d0 0); destruct (Z.eqb_spec d1 0); destruct (Z.eqb_spec d2 0);
      unfold NPY_MAX_INTP in *; nia. }
  assert (B2 : 0 <= d2 <= NPY_MAX_INTP).
  { split; [lia|]. destruct Hc as [_ Hp]. unfold nonzero_product in Hp; simpl in Hp.
    destruct (Z.eqb_spec d0 0); destruct (Z.eqb_spec d1 0); destruct (Z.eqb_spec d2 0);
      unfold NPY_MAX_INTP in *; nia. }
  unfold encode_frame, decode_frame. cbn [nd_shape nd_data flat_map].
  rewrite app_nil_r.
  destruct (firstn_skipn_24 (int64_tobytes d0 ++ int64_tobytes d1 ++ int64_tobytes d2) data)
    as [-> ->]; [rewrite !length_app; reflexivity|].
  rewrite frombuffer_three, !int64_roundtrip by (apply B; lia).
  rewrite Hlen, np_reshape_three by exact Hc. reflexivity.
Qed.

(** A header of three non-negative extents whose product does not match
    the payload length does not reshape: the decode fails. *)
Lemma decode_frame_length_mismatch (blob : bytes) (d0 d1 d2 : Z) :
  (24 <= List.length blob)%nat ->
  frombuffer_int64 (firstn 24 blob) = Some [d0; d1; d2] ->
  0 <= d0 -> 0 <= d1 -> 0 <= d2 ->
  Z.of_nat (List.length blob) <> 24 + d0 * d1 * d2 ->
  decode_frame blob = None.
Proof.
  intros Hl Hfb H0 H1 H2 Hne. unfold decode_frame. rewrite Hfb.
  unfold np_reshape. cbn [scan_dims].
  destruct (d0 <? 0) eqn:E0; [apply Z.ltb_lt in E0; lia|].
  destruct (NPY_MAX_INTP <? 1 * d0); [reflexivity|].
  destruct (d1 <? 0) eqn:E1; [apply Z.ltb_lt in E1; lia|].
  destruct (NPY_MAX_INTP <? 1 * d0 * d1); [reflexivity|].
  destruct (d2 <? 0) eqn:E2; [apply Z.ltb_lt in E2; lia|].
  destruct (NPY_MAX_INTP <? 1 * d0 * d1 * d2); [reflexivity|].
  rewrite length_skipn.
  destruct (Z.eqb_spec (Z.of_nat (List.length blob - 24)) (1 * d0 * d1 * d2)); [lia|].
  reflexivity.
Qed.

End FrameFacts.

(* ------------------------------------------------------------------ *)
(** ** Splitting and joining paths *)

Module StrFacts.
Import PyStr.
Open Scope string_scope.

Lemma py_split_no_char (c : ascii) (s : string) :
  has_char c s = false -> py_split c s = [s].
Proof.
  induction s as [|a s IH]; simpl; intros H; [reflexivity|].
  apply orb_false_iff in H as [Ha Hs]. rewrite Ha, IH by exact Hs. reflexivity.
Qed.

Lemma py_split_app (c : ascii) (a b : string) :
  has_char c a = false -> py_split c (a ++ String c b) = a :: py_split c b.
Proof.
  induction a as [|x a IH]; simpl; intros H.
  - rewrite Ascii.eqb_refl. reflexivity.
  - apply orb_false_iff in H as [Hx Ha]. rewrite Hx, IH by exact Ha. reflexivity.
Qed.

Lemma py_split_not_nil (c : ascii) (s : string) : py_split c s <> [].
Proof.
  destruct s as [|a s]; simpl; [discriminate|].
  destruct (Ascii.eqb a c); [discriminate|]. destruct (py_split c s); discriminate.
Qed.

Lemma py_split_fields (c : ascii) (s : string) :
  Forall (fun x => has_char c x = false) (py_split c s).
Proof.
  induction s as [|a s IH]; simpl; [repeat constructor|].
  destruct (Ascii.eqb a c) eqn:Ea; [constructor; [reflexivity|exact IH]|].
  destruct (py_split c s) as [|h t] eqn:Es.
  - constructor; [simpl; rewrite Ea; reflexivity|constructor].
  - inversion IH as [|? ? Hh Ht]; subst.
    constructor; [simpl; rewrite Ea, Hh; reflexivity|exact Ht].
Qed.

Lemma py_split_join (c : ascii) (l : list string) :
  l <> [] -> Forall (fun x => has_char c x = false) l ->
  py_split c (py_join (String c EmptyString) l) = l.
Proof.
  induction l as [|x t IH]; intros Hne Hf; [contradiction|].
  inversion Hf as [|? ? Hx Ht]; subst.
  destruct t as [|y t'].
  - simpl. apply py_split_no_char, Hx.
  - change (py_join (String c EmptyString) (x :: y :: t'))
      with (x ++ String c (py_join (String c EmptyString) (y :: t'))).
    rewrite py_split_app by exact Hx. rewrite IH by (discriminate || exact Ht). reflexivity.
Qed.

(** The sub-path the router hands to a handler splits back into the
    segments after the kind. *)
Lemma sub_path_split (path r k : string) (segs : list string) :
  py_split "/" path = r :: k :: segs -> segs <> [] ->
  py_split "/" (py_join "/" segs) = segs.
Proof.
  intros H Hne. apply py_split_join; [exact Hne|].
  pose proof (py_split_fields "/" path) as Hf. rewrite H in Hf.
  inversion Hf as [|? ? _ Hf1]; subst. inversion Hf1 as [|? ? _ Hf2]; subst. exact Hf2.
Qed.

End StrFacts.

(* ------------------------------------------------------------------ *)
(** ** The router and the handlers *)

Module ServerFacts.
Import PyStr Frame Server StrFacts.
Open Scope string_scope.

(** Case analysis on every backend answer and guard a hypothesis about a
    run depends on, innermost first. *)
Ltac split_matches H :=
  repeat (cbn [snd fst log world app In ret raise bind lift_res lift_opt put_world get_world emit try_except] in H;
          match type of H with
          | context [match ?x with _ => _ end] =>
              lazymatch x with
              | context [match _ with _ => _ end] => fail
              | (_, _) => fail
              | _ => destruct x eqn:?
              end
          end);
  cbn [snd fst log world app In ret raise bind lift_res lift_opt put_world get_world emit try_except] in H.

(** The same on the goal. *)
Ltac split_goal_matches :=
  repeat (cbn [snd fst log world app ret raise bind lift_res lift_opt put_world get_world emit
               try_except is_method method method_eqb req_body req_path andb negb] ;
          match goal with
          | |- context [match ?x with _ => _ end] =>
              lazymatch x with
              | context [match _ with _ => _ end] => fail
              | (_, _) => fail
              | _ => destruct x eqn:?
              end
          end);
  cbn [snd fst log world app ret raise bind lift_res lift_opt put_world get_world emit
       try_except is_method method method_eqb req_body req_path andb negb].

Section Facts.
Context {B : Backend}.

(** A known run: the router logs the lookup and dispatches on the kind,
    under its catch-all [except]. *)
Lemma handle_request_found (req : Request) (c : Cfg) (r k : string) (segs : list string) (run : Run) :
  py_split "/" req.(req_path) = r :: k :: segs -> segs <> [] ->
  root_get_run c.(world) r = Some run ->
  handle_request req c =
  try_except
    (if String.eqb k "Tomograms" then handle_tomogram req run (py_join "/" segs)
     else if String.eqb k "Picks" then handle_picks req run (py_join "/" segs)
     else if String.eqb k "Segmentations" then handle_segmentation req run (py_join "/" segs)
     else ret (resp 404))
    (fun _ => ret (resp 500)) (mk_cfg c.(world) (c.(log) ++ [EvGetRun r])).
Proof.
  intros Hp Hne Hr. unfold handle_request. rewrite Hp.
  destruct segs as [|s segs]; [contradiction|].
  cbn [List.length Nat.leb nth skipn].
  unfold get_run, try_except, bind, emit, get_world, ret.
  cbn [world log]. rewrite Hr. reflexivity.
Qed.

(** An unknown run: 404 after the lookup. *)
Lemma handle_request_no_run (req : Request) (c : Cfg) (r k : string) (segs : list string) :
  py_split "/" req.(req_path) = r :: k :: segs -> segs <> [] ->
  root_get_run c.(world) r = None ->
  handle_request req c = (Ok (resp 404), mk_cfg c.(world) (c.(log) ++ [EvGetRun r])).
Proof.
  intros Hp Hne Hr. unfold handle_request. rewrite Hp.
  destruct segs as [|s segs]; [contradiction|].
  cbn [List.length Nat.leb nth skipn].
  unfold get_run, try_except, bind, emit, get_world, ret.
  cbn [world log]. rewrite Hr. reflexivity.
Qed.

(** A split is never empty, so the handlers' [len(parts) < 1] guard
    never fires. *)
Lemma split_length_pos (c : ascii) (s : string) : (List.length (py_split c s) <? 1)%nat = false.
Proof.
  destruct (py_split c s) eqn:E; [exfalso; exact (py_split_not_nil _ _ E)|reflexivity].
Qed.

(** [_handle_picks] looks at the method, the body and the first segment
    of its sub-path only. *)
Lemma handle_picks_first_segment (req1 req2 : Request) (run : Run) (p1 p2 : string) :
  req1.(method) = req2.(method) -> req1.(req_body) = req2.(req_body) ->
  nth 0 (py_split "/" p1) "" = nth 0 (py_split "/" p2) "" ->
  handle_picks req1 run p1 = handle_picks req2 run p2.
Proof.
  intros Hm Hb Hn. unfold handle_picks, is_method.
  rewrite !split_length_pos, Hm, Hb, Hn. reflexivity.
Qed.

(** C6: a Picks request whose file name does not split on underscore into
    exactly three fields answers 404, and makes no backend call besides the
    run lookup: no [new_picks], [get_picks] or [store], and no state change. *)
Theorem picks_bad_filename_404 (w : World) (m : Method) (body : bytes) (path r f : string)
    (rest : list string) :
  py_split "/" path = r :: "Picks" :: f :: rest ->
  List.length (py_split "_" f) <> 3%nat ->
  serve w (mk_request m path body) = (Ok (resp 404), mk_cfg w [EvGetRun r]).
Proof.
  intros Hp Hl. unfold serve.
  destruct (root_get_run w r) as [run|] eqn:Hr.
  - rewrite (handle_request_found (mk_request m path body) (mk_cfg w []) _ _ _ run Hp) by (discriminate || exact Hr).
    cbn [String.eqb Ascii.eqb Bool.eqb andb].
    unfold handle_picks. rewrite (sub_path_split _ _ _ _ Hp) by discriminate.
    cbn [List.length Nat.ltb Nat.leb nth].
    destruct (Nat.eqb_spec (List.length (py_split "_" f)) 3); [contradiction|].
    reflexivity.
  - exact (handle_request_no_run (mk_request m path body) (mk_cfg w []) _ _ _ Hp ltac:(discriminate) Hr).
Qed.

(** C10: the Picks handler reads only the first segment of its sub-path:
    two requests with the same method, body and state whose Picks sub-paths
    share their first segment give the same response, state and log. *)
Theorem picks_first_segment_only (w : World) (m : Method) (body : bytes)
    (path1 path2 r f : string) (rest1 rest2 : list string) :
  py_split "/" path1 = r :: "Picks" :: f :: rest1 ->
  py_split "/" path2 = r :: "Picks" :: f :: rest2 ->
  serve w (mk_request m path1 body) = serve w (mk_request m path2 body).
Proof.
  intros H1 H2. unfold serve.
  destruct (root_get_run w r) as [run|] eqn:Hr.
  - rewrite (handle_request_found (mk_request m path1 body) (mk_cfg w []) _ _ _ run H1),
      (handle_request_found (mk_request m path2 body) (mk_cfg w []) _ _ _ run H2)
      by (discriminate || exact Hr).
    cbn [String.eqb Ascii.eqb Bool.eqb andb].
    rewrite (handle_picks_first_segment (mk_request m path1 body) (mk_request m path2 body)
               run (py_join "/" (f :: rest1)) (py_join "/" (f :: rest2))); [reflexivity..|].
    rewrite (sub_path_split _ _ _ _ H1), (sub_path_split _ _ _ _ H2) by discriminate.
    reflexivity.
  - rewrite (handle_request_no_run (mk_request m path1 body) (mk_cfg w []) _ _ _ H1),
      (handle_request_no_run (mk_request m path2 body) (mk_cfg w []) _ _ _ H2)
      by (discriminate || exact Hr). reflexivity.
Qed.

(** C7: when the run named by the first segment is unknown, a path of at
    least three segments answers 404 after the run lookup alone, whatever
    the kind and the method. *)
Theorem unknown_run_404 (w : World) (req : Request) (r k : string) (segs : list string) :
  py_split "/" req.(req_path) = r :: k :: segs -> segs <> [] ->
  root_get_run w r = None ->
  serve w req = (Ok (resp 404), mk_cfg w [EvGetRun r]).
Proof.
  intros Hp Hne Hr. exact (handle_request_no_run req (mk_cfg w []) r k segs Hp Hne Hr).
Qed.

(** C3: a PUT to an existing read-only tomogram writes nothing: it takes the
    read branch, answering 200 with the stored chunk when the key exists and
    404 when it does not; the state is unchanged and the log holds no
    [zarr] write. *)
Theorem tomogram_put_read_only (w : World) (body : bytes) (path r s0 s1 : string)
    (rest : list string) (run : Run) (v : pyfloat) (vs : VoxelSpacing) (t : Tomogram) :
  py_split "/" path = r :: "Tomograms" :: s0 :: s1 :: rest ->
  root_get_run w r = Some run ->
  py_float (py_replace "VoxelSpacing" "" s0) = Some v ->
  run_get_voxel_spacing w run v = Some vs ->
  vs_get_tomogram w vs (py_replace ".zarr" "" s1) = Some t ->
  tomo_read_only w t = true ->
  let key := py_join "/" rest in
  let logged := [EvGetRun r; EvGetVoxelSpacing v; EvGetTomogram (py_replace ".zarr" "" s1);
                 EvTomoZarrGet key] in
  (forall b, tomo_zarr_get w t key = Ok b ->
     serve w (mk_request PUT path body) = (Ok (mk_response 200 (Some b)), mk_cfg w logged)) /\
  (tomo_zarr_get w t key = Err KeyError ->
     serve w (mk_request PUT path body) = (Ok (resp 404), mk_cfg w logged)).
Proof.
  intros Hp Hr Hf Hv Ht Hro key logged. unfold serve.
  rewrite (handle_request_found (mk_request PUT path body) (mk_cfg w []) _ _ _ run Hp)
    by (discriminate || exact Hr).
  cbn [String.eqb Ascii.eqb Bool.eqb andb].
  unfold handle_tomogram. rewrite (sub_path_split _ _ _ _ Hp) by discriminate.
  cbn [List.length Nat.ltb Nat.leb nth skipn]. rewrite Hf.
  unfold get_voxel_spacing, get_tomogram, read_only, tomo_get, tomo_set, try_except, bind,
    emit, get_world, ret, lift_res, raise.
  cbn [world log app]. rewrite Hv. cbn [world log app]. rewrite Ht. cbn [world log app].
  rewrite Hro. cbn [is_method method method_eqb andb negb world log app].
  subst key logged. split.
  - intros b Hb. rewrite Hb. reflexivity.
  - intros Hb. rewrite Hb. reflexivity.
Qed.

(** [str.replace] leaves a string without the pattern unchanged. *)
Lemma replace_go_absent (fuel : nat) (old new s : string) :
  py_contains old s = false -> replace_go fuel old new s = s.
Proof.
  revert s; induction fuel as [|f IH]; intros s H; [reflexivity|].
  destruct s as [|c s']; [reflexivity|].
  cbn [py_contains] in H. apply orb_false_iff in H as [Hpre Hs].
  cbn [replace_go]. rewrite Hpre, IH by exact Hs. reflexivity.
Qed.

(** C9 (amended): the tomogram type looked up is the second sub-path segment
    with every non-overlapping occurrence of [.zarr] removed, as
    [str.replace] does; a segment without [.zarr] is passed unchanged. *)
Theorem tomogram_type_replace (w : World) (m : Method) (body : bytes) (path r s0 s1 : string)
    (rest : list string) (t : string) :
  py_split "/" path = r :: "Tomograms" :: s0 :: s1 :: rest ->
  In (EvGetTomogram t) (snd (serve w (mk_request m path body))).(log) ->
  t = py_replace ".zarr" "" s1 /\ (py_contains ".zarr" s1 = false -> t = s1).
Proof.
  intros Hp Hin.
  assert (Ht : t = py_replace ".zarr" "" s1).
  { unfold serve in Hin.
    destruct (root_get_run w r) as [run|] eqn:Hr.
    - rewrite (handle_request_found (mk_request m path body) (mk_cfg w []) _ _ _ run Hp) in Hin
        by (discriminate || exact Hr).
      cbn [String.eqb Ascii.eqb Bool.eqb andb] in Hin.
      unfold handle_tomogram in Hin. rewrite (sub_path_split _ _ _ _ Hp) in Hin by discriminate.
      cbn [List.length Nat.ltb Nat.leb nth skipn] in Hin.
      unfold get_voxel_spacing, get_tomogram, read_only, tomo_get, tomo_set, try_except, bind,
        emit, get_world, ret, lift_res, raise, put_world in Hin.
      cbn [world log app] in Hin.
      split_matches Hin; intuition congruence.
    - rewrite (handle_request_no_run (mk_request m path body) (mk_cfg w []) _ _ _ Hp) in Hin
        by (discriminate || exact Hr).
      cbn in Hin. intuition congruence. }
  split; [exact Ht|]. intros Hno. rewrite Ht. apply replace_go_absent, Hno.
Qed.

(** C5: a segmentation request (any method) whose file name has at least four
    underscore fields but whose first field is not a float answers 500,
    through the router's catch-all; a tomogram request whose voxel spacing
    is not a float answers 404. *)
Theorem segmentation_voxel_parse_error :
  (forall (w : World) (m : Method) (body : bytes) (path r f : string) (rest : list string)
          (run : Run),
     py_split "/" path = r :: "Segmentations" :: f :: rest ->
     root_get_run w r = Some run ->
     (4 <= List.length (py_split "_" (py_replace ".zarr" "" f)))%nat ->
     py_float (nth 0 (py_split "_" (py_replace ".zarr" "" f)) "") = None ->
     fst (serve w (mk_request m path body)) = Ok (resp 500)) /\
  (forall (w : World) (m : Method) (body : bytes) (path r s0 s1 : string)
          (rest : list string) (run : Run),
     py_split "/" path = r :: "Tomograms" :: s0 :: s1 :: rest ->
     root_get_run w r = Some run ->
     py_float (py_replace "VoxelSpacing" "" s0) = None ->
     fst (serve w (mk_request m path body)) = Ok (resp 404)).
Proof.
  split.
  - intros w m body path r f rest run Hp Hr Hl Hf. unfold serve.
    rewrite (handle_request_found (mk_request m path body) (mk_cfg w []) _ _ _ run Hp)
      by (discriminate || exact Hr).
    cbn [String.eqb Ascii.eqb Bool.eqb andb].
    unfold handle_segmentation. rewrite (sub_path_split _ _ _ _ Hp) by discriminate.
    cbn [nth]. rewrite (proj2 (Nat.ltb_ge _ _) Hl).
    cbn [List.length Nat.ltb Nat.leb]. rewrite Hf. reflexivity.
  - intros w m body path r s0 s1 rest run Hp Hr Hf. unfold serve.
    rewrite (handle_request_found (mk_request m path body) (mk_cfg w []) _ _ _ run Hp)
      by (discriminate || exact Hr).
    cbn [String.eqb Ascii.eqb Bool.eqb andb].
    unfold handle_tomogram. rewrite (sub_path_split _ _ _ _ Hp) by discriminate.
    cbn [List.length Nat.ltb Nat.leb nth]. rewrite Hf. reflexivity.
Qed.

(** C2 (amended): a segmentation PUT whose body holds a full 24-byte header
    of three non-negative extents, but whose length differs from 24 plus
    their product, fails to decode and answers 500 with nothing written. *)
Theorem segmentation_put_length_mismatch (w : World) (path r f : string) (rest : list string)
    (run : Run) (v : pyfloat) (blob : bytes) (d0 d1 d2 : Z) :
  py_split "/" path = r :: "Segmentations" :: f :: rest ->
  root_get_run w r = Some run ->
  (4 <= List.length (py_split "_" (py_replace ".zarr" "" f)))%nat ->
  py_float (nth 0 (py_split "_" (py_replace ".zarr" "" f)) "") = Some v ->
  (24 <= List.length blob)%nat ->
  frombuffer_int64 (firstn 24 blob) = Some [d0; d1; d2] ->
  (0 <= d0)%Z -> (0 <= d1)%Z -> (0 <= d2)%Z ->
  (Z.of_nat (List.length blob) <> 24 + d0 * d1 * d2)%Z ->
  decode_frame blob = None /\
  serve w (mk_request PUT path blob) = (Ok (resp 500), mk_cfg w [EvGetRun r]).
Proof.
  intros Hp Hr Hl Hf Hb Hfb H0 H1 H2 Hne.
  assert (Hd : decode_frame blob = None) by (eapply FrameFacts.decode_frame_length_mismatch; eauto).
  split; [exact Hd|]. unfold serve.
  rewrite (handle_request_found (mk_request PUT path blob) (mk_cfg w []) _ _ _ run Hp)
    by (discriminate || exact Hr).
  cbn [String.eqb Ascii.eqb Bool.eqb andb].
  unfold handle_segmentation. rewrite (sub_path_split _ _ _ _ Hp) by discriminate.
  cbn [nth]. rewrite (proj2 (Nat.ltb_ge _ _) Hl).
  cbn [List.length Nat.ltb Nat.leb]. rewrite Hf. cbn [lift_opt bind ret is_method method method_eqb try_except req_body].
  rewrite Hd. reflexivity.
Qed.

(** C4: for the file name [10.0_alice_s1_membrane-multilabel.zarr] a PUT
    with a decodable body calls the segmentation writer with the run, the
    decoded volume, user [alice], name [membrane], session [s1], voxel size
    10.0 and multilabel true, and makes no other backend call. *)
Theorem multilabel_put_call (w : World) (path r : string) (blob : bytes) (run : Run)
    (data : ndarray) :
  py_split "/" path = [r; "Segmentations"; "10.0_alice_s1_membrane-multilabel.zarr"; "0"] ->
  root_get_run w r = Some run ->
  decode_frame blob = Some data ->
  (snd (serve w (mk_request PUT path blob))).(log) =
  [EvGetRun r; EvWriteSegmentation run data "alice" "membrane" "s1" (PFin (10 # 1)) true].
Proof.
  intros Hp Hr Hd. unfold serve.
  rewrite (handle_request_found (mk_request PUT path blob) (mk_cfg w []) _ _ _ run Hp)
    by (discriminate || exact Hr).
  cbn [String.eqb Ascii.eqb Bool.eqb andb].
  unfold handle_segmentation. rewrite (sub_path_split _ _ _ _ Hp) by discriminate.
  cbn. rewrite Hd.
  match goal with
  | |- context [float_inner ?l] =>
      replace (float_inner l) with (Some (PFin (10 # 1))) by reflexivity
  end.
  unfold try_except, bind, ret, write_seg, emit, get_world, lift_res, put_world, raise.
  cbn.
  match goal with
  | |- context [write_segmentation ?a ?b ?c ?d ?e ?f ?g ?h] =>
      destruct (write_segmentation a b c d e f g h)
  end; reflexivity.
Qed.

(** C8 (amended): GET and HEAD on the same path and state both answer; the
    HEAD answer has no body, and has the GET status except on Picks, where
    HEAD answers 200 once a matching pick set exists while GET answers 500
    when serialising it raises. *)
Theorem head_matches_get (w : World) (path : string) (body : bytes) :
  exists g h,
    fst (serve w (mk_request GET path body)) = Ok g /\
    fst (serve w (mk_request HEAD path body)) = Ok h /\
    rbody h = None /\
    (status h = status g \/
     (status h = 200 /\ status g = 500 /\ nth 1 (py_split "/" path) "" = "Picks")).
Proof.
  unfold serve, handle_request, handle_tomogram, handle_picks, handle_segmentation,
    get_run, get_voxel_spacing, get_tomogram, read_only, tomo_get, tomo_set, new_picks,
    set_meta, store, get_picks, picks_json, get_segmentations, seg_get, write_seg.
  unfold ret, raise, bind, lift_res, lift_opt, put_world, get_world, emit, try_except.
  split_goal_matches;
    (eexists; eexists; split; [reflexivity|]; split; [reflexivity|]; split; [reflexivity|]);
    first [left; reflexivity
          | right; split; [reflexivity|]; split; [reflexivity|]; apply String.eqb_eq; assumption].
Qed.

End Facts.

End ServerFacts.


(* ================================================================== *)
(** * Concrete runs on the in-memory backend *)

Module Checks.
Import PyStr Frame Server Demo SpecSide FrameFacts ServerFacts.
Open Scope string_scope.
Open Scope Z_scope.

(** C1 at the shape (1,1,2). *)
Lemma decode_encode_frame_witness :
  (shape_creatable [1; 1; 2] /\ Z.of_nat (List.length [Byte.x01; Byte.x02]) = 1 * 1 * 2) /\
  decode_frame (encode_frame (mk_ndarray [1; 1; 2] [Byte.x01; Byte.x02])) =
  Some (mk_ndarray [1; 1; 2] [Byte.x01; Byte.x02]).
Proof.
  assert (Hs : shape_creatable [1; 1; 2]).
  { split; [repeat constructor; lia | vm_compute; congruence]. }
  split; [split; [exact Hs | reflexivity]|].
  apply (decode_encode_frame 1 1 2 [Byte.x01; Byte.x02]); [exact Hs | reflexivity].
Defined.

(** C2: an 8-byte body of zeros, shorter than the header, decodes to an
    empty array of shape (0,) and is written (200); a header (-1,1,1)
    with two payload bytes, length 26 and not 24 + (-1), decodes to
    shape (2,1,1) and is written too. *)
Lemma segmentation_short_body_accepted :
  let path := "r/Segmentations/10.0_alice_s1_m.zarr" in
  let short := int64_tobytes 0 in
  let neg := app (flat_map int64_tobytes [-1; 1; 1]) [Byte.x01; Byte.x02] in
  (List.length short < 24)%nat /\
  decode_frame short = Some (mk_ndarray [0] []) /\
  fst (serve demo_world (mk_request PUT path short)) = Ok (resp 200) /\
  Z.of_nat (List.length neg) <> 24 + (-1) * 1 * 1 /\
  decode_frame neg = Some (mk_ndarray [2; 1; 1] [Byte.x01; Byte.x02]) /\
  fst (serve demo_world (mk_request PUT path neg)) = Ok (resp 200).
Proof.
  vm_compute. repeat split; lia || reflexivity.
Qed.

(** C2 at a (1,1,2) header followed by three bytes. *)
Lemma segmentation_put_length_mismatch_witness :
  let path := "r/Segmentations/10.0_alice_s1_m.zarr" in
  let blob := app (flat_map int64_tobytes [1; 1; 2]) [Byte.x01; Byte.x02; Byte.x03] in
  decode_frame blob = None /\
  serve demo_world (mk_request PUT path blob) = (Ok (resp 500), mk_cfg demo_world [EvGetRun "r"]).
Proof.
  intros path blob.
  apply (segmentation_put_length_mismatch (B := demo_backend) demo_world path "r" "10.0_alice_s1_m.zarr" []
           "r" ten blob 1 1 2); vm_compute; try reflexivity; try lia; discriminate.
Defined.

(** C3 at the read-only [wbp] tomogram: a PUT reads chunk [0]. *)
Lemma tomogram_put_read_only_witness :
  let path := "r/Tomograms/VoxelSpacing10.0/wbp.zarr/0" in
  tomo_zarr_get demo_world 0%nat "0" = Ok [Byte.x2a] /\
  serve demo_world (mk_request PUT path [Byte.x01]) =
  (Ok (mk_response 200 (Some [Byte.x2a])),
   mk_cfg demo_world [EvGetRun "r"; EvGetVoxelSpacing ten; EvGetTomogram "wbp";
                      EvTomoZarrGet "0"]).
Proof.
  intros path. split; [reflexivity|].
  apply (proj1 (tomogram_put_read_only (B := demo_backend) demo_world [Byte.x01] path "r" "VoxelSpacing10.0"
                  "wbp.zarr" ["0"] "r" ten ("r", ten) 0%nat
                  eq_refl eq_refl eq_refl eq_refl eq_refl eq_refl)).
  reflexivity.
Defined.

(** C4 on the demo run with a (1,1,2) frame. *)
Lemma multilabel_put_call_witness :
  let path := "r/Segmentations/10.0_alice_s1_membrane-multilabel.zarr/0" in
  let data := mk_ndarray [1; 1; 2] [Byte.x01; Byte.x02] in
  decode_frame (encode_frame data) = Some data /\
  (snd (serve demo_world (mk_request PUT path (encode_frame data)))).(log) =
  [EvGetRun "r"; EvWriteSegmentation "r" data "alice" "membrane" "s1" (PFin (10 # 1)) true].
Proof.
  intros path data. split; [reflexivity|].
  apply (multilabel_put_call (B := demo_backend) demo_world path "r" (encode_frame data) "r" data);
    vm_compute; reflexivity.
Defined.

(** C5: [abc] as the voxel size of a segmentation, [VoxelSpacingXYZ] as the
    spacing of a tomogram. *)
Lemma segmentation_voxel_parse_error_witness :
  fst (serve demo_world (mk_request GET "r/Segmentations/abc_alice_s1_m.zarr/0" [])) =
  Ok (resp 500) /\
  fst (serve demo_world (mk_request GET "r/Tomograms/VoxelSpacingXYZ/wbp.zarr/0" [])) =
  Ok (resp 404).
Proof.
  split.
  - apply (proj1 (segmentation_voxel_parse_error (B := demo_backend)) demo_world GET []
             "r/Segmentations/abc_alice_s1_m.zarr/0" "r" "abc_alice_s1_m.zarr" ["0"] "r");
      vm_compute; try reflexivity; lia.
  - apply (proj2 (segmentation_voxel_parse_error (B := demo_backend)) demo_world GET []
             "r/Tomograms/VoxelSpacingXYZ/wbp.zarr/0" "r" "VoxelSpacingXYZ" "wbp.zarr" ["0"] "r");
      vm_compute; reflexivity.
Defined.

(** C6 at [alice.json]. *)
Lemma picks_bad_filename_404_witness :
  serve demo_world (mk_request PUT "r/Picks/alice.json" [Byte.x7b]) =
  (Ok (resp 404), mk_cfg demo_world [EvGetRun "r"]).
Proof.
  apply (picks_bad_filename_404 (B := demo_backend) demo_world PUT [Byte.x7b] "r/Picks/alice.json" "r"
           "alice.json" []); vm_compute; [reflexivity | discriminate].
Defined.

(** C7 at the unknown run [zz]. *)
Lemma unknown_run_404_witness :
  serve demo_world (mk_request GET "zz/Picks/x" []) =
  (Ok (resp 404), mk_cfg demo_world [EvGetRun "zz"]).
Proof.
  apply (unknown_run_404 (B := demo_backend) demo_world (mk_request GET "zz/Picks/x" []) "zz" "Picks" ["x"]);
    vm_compute; [reflexivity | discriminate | reflexivity].
Defined.

(** C8: the stored [alice/s1/ribosome] pick set cannot be serialised, so
    GET answers 500 while HEAD answers 200. *)
Lemma head_get_picks_differ :
  fst (serve demo_world (mk_request GET "r/Picks/alice_s1_ribosome.json" [])) =
  Ok (resp 500) /\
  fst (serve demo_world (mk_request HEAD "r/Picks/alice_s1_ribosome.json" [])) =
  Ok (resp 200).
Proof.
  split; vm_compute; reflexivity.
Qed.

(** C9: for the segment [a.zarrb.zarr] the type looked up is [ab], not the
    suffix-stripped [a.zarrb]. *)
Lemma tomogram_type_not_suffix :
  let path := "r/Tomograms/VoxelSpacing10.0/a.zarrb.zarr/0" in
  In (EvGetTomogram "ab") (snd (serve demo_world (mk_request GET path []))).(log) /\
  ~ In (EvGetTomogram (strip_zarr_suffix "a.zarrb.zarr"))
      (snd (serve demo_world (mk_request GET path []))).(log) /\
  strip_zarr_suffix "a.zarrb.zarr" = "a.zarrb".
Proof.
  vm_compute. split; [right; right; left; reflexivity|].
  split; [|reflexivity].
  intros [H|[H|[H|[H|H]]]]; discriminate || exact H.
Qed.

(** C9 at [wbp.zarr]. *)
Lemma tomogram_type_replace_witness :
  let path := "r/Tomograms/VoxelSpacing10.0/wbp.zarr/0" in
  In (EvGetTomogram "wbp") (snd (serve demo_world (mk_request GET path []))).(log) /\
  "wbp" = py_replace ".zarr" "" "wbp.zarr" /\
  (py_contains ".zarr" "wbp.zarr" = false -> "wbp" = "wbp.zarr").
Proof.
  intros path.
  assert (Hin : In (EvGetTomogram "wbp") (snd (serve demo_world (mk_request GET path []))).(log)).
  { vm_compute. right; right; left; reflexivity. }
  split; [exact Hin|].
  exact (tomogram_type_replace (B := demo_backend) demo_world GET [] path "r" "VoxelSpacing10.0" "wbp.zarr" ["0"]
           "wbp" eq_refl Hin).
Defined.

(** C10: two Picks paths sharing their first segment. *)
Lemma picks_first_segment_only_witness :
  serve demo_world (mk_request GET "r/Picks/alice_s1_ribosome.json/a" []) =
  serve demo_world (mk_request GET "r/Picks/alice_s1_ribosome.json/b/c" []).
Proof.
  apply (picks_first_segment_only (B := demo_backend) demo_world GET [] "r/Picks/alice_s1_ribosome.json/a"
           "r/Picks/alice_s1_ribosome.json/b/c" "r" "alice_s1_ribosome.json" ["a"] ["b"; "c"]);
    vm_compute; reflexivity.
Defined.

End Checks.

(* ------------------------------------------------------------------ *)
(** ** More facts on the string builtins *)

Module StrMore.
Import PyStr StrFacts ServerFacts.
Open Scope string_scope.

Lemma append_assoc_str (a b c : string) : (a ++ b) ++ c = a ++ (b ++ c).
Proof. induction a as [|x a IH]; cbn; [reflexivity|rewrite IH; reflexivity]. Qed.

Lemma has_char_app (c : ascii) (a b : string) :
  has_char c (a ++ b) = has_char c a || has_char c b.
Proof. induction a as [|x a IH]; cbn; [reflexivity|rewrite IH, orb_assoc; reflexivity]. Qed.

Lemma py_join_split (c : ascii) (s : string) :
  py_join (String c EmptyString) (py_split c s) = s.
Proof.
  induction s as [|a s IH]; [reflexivity|]. cbn [py_split].
  destruct (Ascii.eqb a c) eqn:E.
  - apply Ascii.eqb_eq in E; subst a.
    destruct (py_split c s) as [|h t] eqn:Es; [exfalso; exact (py_split_not_nil _ _ Es)|].
    cbn. rewrite <- IH. reflexivity.
  - destruct (py_split c s) as [|h t] eqn:Es; [exfalso; exact (py_split_not_nil _ _ Es)|].
    destruct t as [|h' t']; cbn in IH |- *; rewrite IH; reflexivity.
Qed.

Lemma prefix_empty (s : string) : String.prefix EmptyString s = true.
Proof. destruct s; reflexivity. Qed.

Lemma prefix_app_long (p t u : string) :
  (String.length p <= String.length t)%nat -> String.prefix p (t ++ u) = String.prefix p t.
Proof.
  revert t; induction p as [|x p IH]; intros t H; [rewrite !prefix_empty; reflexivity|].
  destruct t as [|y t]; cbn in H; [lia|]. cbn [append String.prefix].
  destruct (ascii_dec x y); [apply IH; lia|reflexivity].
Qed.

Lemma prefix_app_sep (p t b : string) (c : ascii) :
  has_char c p = false -> (String.length t < String.length p)%nat ->
  String.prefix p (t ++ String c b) = false.
Proof.
  revert p; induction t as [|y t IH]; intros p Hc Hl.
  - destruct p as [|x p]; cbn in Hl; [lia|]. cbn [append String.prefix].
    cbn [has_char] in Hc. apply orb_false_iff in Hc as [Hx _].
    destruct (ascii_dec x c) as [->|]; [rewrite Ascii.eqb_refl in Hx; discriminate|reflexivity].
  - destruct p as [|x p]; cbn in Hl; [lia|]. cbn [append String.prefix].
    cbn [has_char] in Hc. apply orb_false_iff in Hc as [_ Hp].
    destruct (ascii_dec x y); [apply IH; [exact Hp|lia]|reflexivity].
Qed.

Lemma contains_app_sep (p a b : string) (c : ascii) :
  p <> EmptyString -> has_char c p = false ->
  py_contains p a = false -> py_contains p b = false ->
  py_contains p (a ++ String c b) = false.
Proof.
  intros Hne Hc. induction a as [|y a IH]; intros Ha Hb.
  - cbn [append]. cbn [py_contains]. rewrite Hb, orb_false_r.
    apply (prefix_app_sep p EmptyString b c Hc).
    destruct p; [contradiction|cbn; lia].
  - change (String y a ++ String c b) with (String y (a ++ String c b)).
    cbn [py_contains] in Ha |- *. apply orb_false_iff in Ha as [Hpre Ha].
    rewrite IH by assumption. rewrite orb_false_r.
    change (String y (a ++ String c b)) with (String y a ++ String c b).
    destruct (Nat.le_gt_cases (String.length p) (String.length (String y a))) as [Hle|Hgt].
    + rewrite prefix_app_long by exact Hle. exact Hpre.
    + apply prefix_app_sep; assumption.
Qed.

Lemma contains_app_r (p a b : string) :
  py_contains p b = true -> py_contains p (a ++ b) = true.
Proof.
  induction a as [|y a IH]; intros H; [exact H|].
  cbn [append py_contains]. rewrite IH by exact H. apply orb_true_r.
Qed.


Lemma str_drop_app (a b : string) : str_drop (String.length a) (a ++ b) = b.
Proof. induction a as [|x a IH]; [reflexivity|exact IH]. Qed.

Lemma prefix_refl (s : string) : String.prefix s s = true.
Proof. induction s as [|x s IH]; [reflexivity|]. cbn. destruct (ascii_dec x x); [exact IH|contradiction]. Qed.

Lemma str_drop_all (a : string) : str_drop (String.length a) a = EmptyString.
Proof. induction a as [|x a IH]; [reflexivity|exact IH]. Qed.

Lemma length_append_str (a b : string) :
  String.length (a ++ b) = (String.length a + String.length b)%nat.
Proof. induction a as [|x a IH]; cbn; [reflexivity|rewrite IH; reflexivity]. Qed.

Lemma replace_go_empty (fuel : nat) (old new : string) :
  replace_go fuel old new EmptyString = EmptyString.
Proof. destruct fuel; reflexivity. Qed.

Lemma replace_go_suffix (old s : string) (fuel : nat) :
  border_free old -> old <> EmptyString -> py_contains old s = false ->
  (String.length s < fuel)%nat -> replace_go fuel old "" (s ++ old) = s.
Proof.
  intros Hb Hne. revert fuel. induction s as [|c s IH]; intros fuel Hc Hf.
  - destruct fuel as [|f]; [cbn in Hf; lia|]. cbn [append].
    destruct old as [|o old']; [contradiction|].
    cbn [replace_go]. rewrite prefix_refl, str_drop_all, replace_go_empty. reflexivity.
  - destruct fuel as [|f]; [cbn in Hf; lia|].
    change (String c s ++ old) with (String c (s ++ old)). cbn [replace_go].
    cbn [py_contains] in Hc. apply orb_false_iff in Hc as [Hpre Hc].
    change (String c (s ++ old)) with (String c s ++ old).
    replace (String.prefix old (String c s ++ old)) with false.
    + change (String c s ++ old) with (String c (s ++ old)).
      rewrite IH by (exact Hc || (cbn in Hf; lia)). reflexivity.
    + destruct (Nat.le_gt_cases (String.length old) (String.length (String c s))) as [Hle|Hgt].
      * rewrite prefix_app_long by exact Hle. symmetry; exact Hpre.
      * symmetry. apply Hb; [discriminate|exact Hgt].
Qed.

Lemma replace_suffix (old s : string) :
  border_free old -> old <> EmptyString -> py_contains old s = false ->
  py_replace old "" (s ++ old) = s.
Proof.
  intros Hb Hne Hc. unfold py_replace. destruct old as [|o old']; [contradiction|].
  apply replace_go_suffix; [exact Hb|exact Hne|exact Hc|].
  rewrite length_append_str. cbn. lia.
Qed.

Lemma replace_prefix (old s : string) :
  old <> EmptyString -> py_contains old s = false -> py_replace old "" (old ++ s) = s.
Proof.
  intros Hne Hc. unfold py_replace. destruct old as [|o old']; [contradiction|].
  cbn [String.length append]. cbn [replace_go].
  change (String o (old' ++ s)) with (String o old' ++ s).
  rewrite prefix_app_long by lia. rewrite prefix_refl.
  change (S (String.length (old' ++ s))) with (String.length (String o old' ++ s)).
  rewrite str_drop_app. cbn [append]. apply replace_go_absent, Hc.
Qed.

Ltac border_cases :=
  repeat (cbn [append String.prefix];
          match goal with
          | |- context [ascii_dec ?a ?b] =>
              destruct (ascii_dec a b) as [e|e]; [try (subst; fail); try discriminate e; subst|]
          end);
  reflexivity.

Lemma border_free_zarr : border_free ".zarr".
Proof.
  intros t Hne Hl. destruct t as [|c1 [|c2 [|c3 [|c4 [|c5 t]]]]]; cbn in Hl;
    [contradiction| | | | |lia]; border_cases.
Qed.

Lemma border_free_multilabel : border_free "-multilabel".
Proof.
  intros t Hne Hl.
  destruct t as [|c1 [|c2 [|c3 [|c4 [|c5 [|c6 [|c7 [|c8 [|c9 [|c10 [|c11 t]]]]]]]]]]];
    cbn in Hl; [contradiction| | | | | | | | | | |lia]; border_cases.
Qed.

End StrMore.

(* ------------------------------------------------------------------ *)
(** ** What a decoded frame looks like *)

Module FrameMore.
Import Frame FrameFacts Client.
Open Scope list_scope.
Open Scope Z_scope.

Lemma product_cons (d : Z) (t : list Z) : product (d :: t) = d * product t.
Proof. reflexivity. Qed.

Lemma length_list_set (l : list Z) (j : nat) (v : Z) : List.length (list_set l j v) = List.length l.
Proof. revert j; induction l as [|x l IH]; intros [|j]; cbn; auto. Qed.

Lemma product_list_set (l : list Z) (j : nat) (v : Z) :
  (j < List.length l)%nat -> product (list_set l j v) = v * product (list_set l j 1).
Proof.
  revert j; induction l as [|x l IH]; intros [|j] Hj; cbn [List.length] in Hj; try lia.
  - cbn [list_set]. rewrite !product_cons. ring.
  - cbn [list_set]. rewrite !product_cons, IH by lia. ring.
Qed.

Lemma Forall_list_set (P : Z -> Prop) (l : list Z) (j : nat) (v x : Z) :
  Forall P (list_set l j v) -> P x -> Forall P (list_set l j x).
Proof.
  revert j; induction l as [|y l IH]; intros [|j] H Hx; cbn in *; auto.
  - inversion H; subst. constructor; auto.
  - inversion H; subst. constructor; auto.
Qed.

Lemma product_nonneg (l : list Z) : Forall (fun d => 0 <= d) l -> 0 <= product l.
Proof.
  induction l as [|x l IH]; intros H; [cbn; lia|].
  inversion H; subst. rewrite product_cons. specialize (IH H3). nia.
Qed.

Lemma scan_dims_spec (dims : list Z) (i : nat) (iu iu' : option nat) (sk sk' : Z) :
  scan_dims dims i iu sk = Some (iu', sk') ->
  (iu' = iu /\ Forall (fun d => 0 <= d) dims /\ sk' = sk * product dims) \/
  (iu = None /\ exists j, iu' = Some (i + j)%nat /\ (j < List.length dims)%nat /\
     Forall (fun d => 0 <= d) (list_set dims j 1) /\ sk' = sk * product (list_set dims j 1)).
Proof.
  revert i iu sk; induction dims as [|d t IH]; intros i iu sk H; cbn [scan_dims] in H.
  - inversion H; subst. left. cbn. repeat split; [constructor|lia].
  - destruct (d <? 0) eqn:Ed.
    + destruct iu as [u|]; [discriminate|].
      apply IH in H as [(-> & Hf & ->)|(Hc & _)]; [|discriminate].
      right. split; [reflexivity|]. exists O. cbn [list_set List.length].
      repeat split; [f_equal; lia|lia|constructor; [lia|exact Hf]|rewrite product_cons; ring].
    + destruct (NPY_MAX_INTP <? sk * d); [discriminate|].
      apply Z.ltb_ge in Ed.
      apply IH in H as [(-> & Hf & ->)|(-> & j & -> & Hj & Hf & ->)].
      * left. repeat split; [constructor; assumption|rewrite product_cons; ring].
      * right. split; [reflexivity|]. exists (S j). cbn [list_set List.length].
        repeat split; [f_equal; lia|lia|constructor; assumption|rewrite product_cons; ring].
Qed.

Lemma np_reshape_spec (size : Z) (dims out : list Z) :
  0 <= size -> np_reshape size dims = Some out ->
  Forall (fun d => 0 <= d) out /\ product out = size /\ List.length out = List.length dims.
Proof.
  intros Hs H. unfold np_reshape in H.
  destruct (scan_dims dims 0 None 1) as [[[iu|] sk]|] eqn:E; [| |discriminate].
  - destruct ((sk =? 0) || negb (size mod sk =? 0)) eqn:Ec; [discriminate|].
    inversion H; subst out. apply orb_false_iff in Ec as [E0 Em].
    apply Z.eqb_neq in E0. apply negb_false_iff, Z.eqb_eq in Em.
    apply scan_dims_spec in E as [(Hc & _)|(_ & j & Hj & Hlt & Hf & Hsk)]; [discriminate|].
    inversion Hj; subst j; cbn [Nat.add] in *.
    pose proof (product_nonneg _ Hf) as Hp0.
    assert (Hpos : 0 < sk) by lia.
    split; [|split].
    + apply (Forall_list_set _ _ _ 1); [exact Hf|]. apply Z.div_pos; lia.
    + rewrite product_list_set by exact Hlt. rewrite Z.mul_1_l in Hsk. rewrite <- Hsk.
      rewrite Z.mul_comm. symmetry. apply Z_div_exact_full_2; lia.
    + apply length_list_set.
  - destruct (size =? sk) eqn:Eq; [|discriminate]. inversion H; subst out.
    apply Z.eqb_eq in Eq.
    apply scan_dims_spec in E as [(_ & Hf & Hsk)|(_ & j & Hj & _)]; [|discriminate].
    repeat split; [exact Hf|lia].
Qed.

Lemma frombuffer_length (bs : bytes) (l : list Z) :
  frombuffer_int64 bs = Some l -> List.length bs = (8 * List.length l)%nat.
Proof.
  revert l. induction bs as [bs IH] using (induction_ltof1 _ (@List.length _)).
  intros l H. destruct bs as [|b0 [|b1 [|b2 [|b3 [|b4 [|b5 [|b6 [|b7 rest]]]]]]]];
    cbn [frombuffer_int64] in H; try discriminate.
  - inversion H; reflexivity.
  - destruct (frombuffer_int64 rest) as [t|] eqn:Er; [|discriminate].
    inversion H; subst l. apply IH in Er; [|unfold ltof; cbn; lia].
    cbn [List.length]. lia.
Qed.

(** Every frame [decode_frame] accepts has the bytes after the 24-byte
    header as data, a shape of at most three non-negative extents, and as
    many data bytes as the product of its extents. *)
Theorem decode_frame_accepts (blob : bytes) (a : ndarray) :
  decode_frame blob = Some a ->
  a.(nd_data) = skipn 24 blob /\
  Forall (fun d => 0 <= d) a.(nd_shape) /\
  product a.(nd_shape) = Z.of_nat (List.length a.(nd_data)) /\
  (List.length a.(nd_shape) <= 3)%nat.
Proof.
  unfold decode_frame. intros H.
  destruct (frombuffer_int64 (firstn 24 blob)) as [shape|] eqn:Ef; [|discriminate].
  destruct (np_reshape (Z.of_nat (List.length (skipn 24 blob))) shape) as [dims|] eqn:Er;
    [|discriminate].
  inversion H; subst a; cbn [nd_data nd_shape].
  apply np_reshape_spec in Er as (Hf & Hp & Hl); [|lia].
  apply frombuffer_length in Ef. rewrite length_firstn in Ef.
  repeat split; [exact Hf|exact Hp|lia].
Qed.

Lemma creatableb_true (dims : list Z) : shape_creatable dims -> creatableb dims = true.
Proof.
  intros [Hf Hp]. unfold creatableb. apply andb_true_intro. split.
  - apply forallb_forall. intros x Hx. apply Z.leb_le. rewrite Forall_forall in Hf. auto.
  - apply Z.leb_le. exact Hp.
Qed.

Ltac reshape_scan :=
  unfold np_reshape;
  repeat (cbn [scan_dims];
          match goal with |- context [?x <? ?y] => destruct (Z.ltb_spec x y); [nia|] end).

Lemma np_reshape_two (a b size : Z) :
  0 <= a <= NPY_MAX_INTP -> 0 <= b -> a * b <= NPY_MAX_INTP ->
  np_reshape size [a; b] = if size =? a * b then Some [a; b] else None.
Proof. intros. reshape_scan. rewrite Z.mul_1_l. reflexivity. Qed.

Lemma np_reshape_two_zero (a b size : Z) :
  0 <= a <= NPY_MAX_INTP -> 0 <= b -> a * b <= NPY_MAX_INTP ->
  np_reshape size [a; b; 0] = if size =? 0 then Some [a; b; 0] else None.
Proof. intros. reshape_scan. rewrite Z.mul_0_r. reflexivity. Qed.

Lemma creatable_two_bounds (a b : Z) :
  shape_creatable [a; b] ->
  0 <= a <= NPY_MAX_INTP /\ 0 <= b <= NPY_MAX_INTP /\ a * b <= NPY_MAX_INTP.
Proof.
  intros [Hf Hp]. inversion Hf as [|? ? Ha Hf']; subst. inversion Hf'; subst.
  unfold nonzero_product in Hp; simpl in Hp.
  destruct (Z.eqb_spec a 0); destruct (Z.eqb_spec b 0); unfold NPY_MAX_INTP in *; nia.
Qed.

Lemma decode_encode_three (d0 d1 d2 : Z) (data : bytes) :
  shape_creatable [d0; d1; d2] ->
  Z.of_nat (List.length data) = (d0 * d1 * d2)%Z ->
  decode_frame (encode_frame (mk_ndarray [d0; d1; d2] data)) =
  Some (mk_ndarray [d0; d1; d2] data).
Proof.
  intros Hc Hlen.
  destruct (creatable_prefix_products _ _ _ Hc) as (H0 & H1 & H2 & H01 & H012).
  assert (B : forall d, (0 <= d <= NPY_MAX_INTP)%Z -> (0 <= d < 2 ^ 63)%Z)
    by (unfold NPY_MAX_INTP; intros; lia).
  assert (Hb : (0 <= d1 <= NPY_MAX_INTP)%Z /\ (0 <= d2 <= NPY_MAX_INTP)%Z).
  { destruct Hc as [_ Hp]. unfold nonzero_product in Hp; simpl in Hp.
    destruct (Z.eqb_spec d0 0); destruct (Z.eqb_spec d1 0); destruct (Z.eqb_spec d2 0);
      unfold NPY_MAX_INTP in *; split; nia. }
  destruct Hb as [B1 B2].
  unfold encode_frame, decode_frame. cbn [nd_shape nd_data flat_map].
  rewrite app_nil_r.
  destruct (firstn_skipn_24 (int64_tobytes d0 ++ int64_tobytes d1 ++ int64_tobytes d2) data)
    as [-> ->]; [rewrite !length_app; reflexivity|].
  rewrite frombuffer_three, !int64_roundtrip by (apply B; lia).
  rewrite Hlen, np_reshape_three by exact Hc. reflexivity.
Qed.

End FrameMore.

(* ------------------------------------------------------------------ *)
(** ** The routes, branch by branch *)

Module RouteFacts.
Import PyStr Frame Server StrFacts ServerFacts.
Open Scope string_scope.

Ltac enter_route req w run Hp Hr :=
  unfold serve;
  rewrite (handle_request_found req (mk_cfg w []) _ _ _ run Hp) by (discriminate || exact Hr);
  cbn [String.eqb Ascii.eqb Bool.eqb andb];
  unfold handle_tomogram, handle_picks, handle_segmentation;
  rewrite (sub_path_split _ _ _ _ Hp) by discriminate.

Ltac unfold_calls :=
  unfold get_voxel_spacing, get_tomogram, read_only, tomo_get, tomo_set, new_picks,
    set_meta, store, get_picks, picks_json, get_segmentations, seg_get, write_seg,
    lift_res, lift_opt, try_except, bind, emit, get_world, put_world, ret, raise.

Section RouteCases.
Context {B : Backend}.

(** [handle_request]: a path with fewer than three [/]-separated
    segments is answered 404 before any lookup; nothing is logged and the
    world is unchanged. *)
Theorem short_path_404 (w : World) (req : Request) :
  (List.length (py_split "/" req.(req_path)) < 3)%nat ->
  serve w req = (Ok (resp 404), mk_cfg w []).
Proof.
  intros H. unfold serve, handle_request, try_except.
  rewrite (proj2 (Nat.leb_gt _ _) H). reflexivity.
Qed.

(** [handle_request]: for a known run, a second segment other than
    [Tomograms], [Picks] and [Segmentations] is answered 404 after the run
    lookup alone. *)
Theorem unknown_kind_404 (w : World) (m : Method) (body : bytes) (path r k : string)
    (segs : list string) (run : Run) :
  py_split "/" path = r :: k :: segs -> segs <> [] ->
  root_get_run w r = Some run ->
  k <> "Tomograms" -> k <> "Picks" -> k <> "Segmentations" ->
  serve w (mk_request m path body) = (Ok (resp 404), mk_cfg w [EvGetRun r]).
Proof.
  intros Hp Hne Hr H1 H2 H3. unfold serve.
  rewrite (handle_request_found (mk_request m path body) (mk_cfg w []) _ _ _ run Hp Hne Hr).
  apply String.eqb_neq in H1, H2, H3. rewrite H1, H2, H3. reflexivity.
Qed.

(** The router never lets an exception out: every request gets a
    response, with status 200, 404 or 500. *)
Theorem serve_status_range (w : World) (req : Request) :
  exists r, fst (serve w req) = Ok r /\
            (r.(status) = 200 \/ r.(status) = 404 \/ r.(status) = 500)%Z.
Proof.
  destruct req as [m path body].
  unfold serve, handle_request, handle_tomogram, handle_picks, handle_segmentation,
    get_run, get_voxel_spacing, get_tomogram, read_only, tomo_get, tomo_set, new_picks,
    set_meta, store, get_picks, picks_json, get_segmentations, seg_get, write_seg.
  unfold ret, raise, bind, lift_res, lift_opt, put_world, get_world, emit, try_except.
  destruct m; split_goal_matches;
    (eexists; split; [reflexivity|]); cbn [status resp];
    first [left; reflexivity | right; left; reflexivity | right; right; reflexivity].
Qed.

(** A GET or HEAD request never changes the world: only PUT handlers
    write. *)
Theorem reads_keep_state (w : World) (req : Request) :
  req.(method) <> PUT -> (snd (serve w req)).(world) = w.
Proof.
  destruct req as [m path body]; cbn [method]; intros Hm.
  unfold serve, handle_request, handle_tomogram, handle_picks, handle_segmentation,
    get_run, get_voxel_spacing, get_tomogram, read_only, tomo_get, tomo_set, new_picks,
    set_meta, store, get_picks, picks_json, get_segmentations, seg_get, write_seg.
  unfold ret, raise, bind, lift_res, lift_opt, put_world, get_world, emit, try_except.
  destruct m; [| |contradiction]; split_goal_matches; reflexivity.
Qed.

(** [_handle_tomogram]: a path without the tomogram segment, a voxel
    spacing the run does not have, or a tomogram type the spacing does not
    have, is answered 404, with the lookups made so far logged. *)
Theorem tomogram_not_found_404 (w : World) (m : Method) (body : bytes) (path r : string)
    (run : Run) :
  root_get_run w r = Some run ->
  (forall s0, py_split "/" path = [r; "Tomograms"; s0] ->
     serve w (mk_request m path body) = (Ok (resp 404), mk_cfg w [EvGetRun r])) /\
  (forall s0 s1 rest v,
     py_split "/" path = r :: "Tomograms" :: s0 :: s1 :: rest ->
     py_float (py_replace "VoxelSpacing" "" s0) = Some v ->
     run_get_voxel_spacing w run v = None ->
     serve w (mk_request m path body) =
     (Ok (resp 404), mk_cfg w [EvGetRun r; EvGetVoxelSpacing v])) /\
  (forall s0 s1 rest v vs,
     py_split "/" path = r :: "Tomograms" :: s0 :: s1 :: rest ->
     py_float (py_replace "VoxelSpacing" "" s0) = Some v ->
     run_get_voxel_spacing w run v = Some vs ->
     vs_get_tomogram w vs (py_replace ".zarr" "" s1) = None ->
     serve w (mk_request m path body) =
     (Ok (resp 404), mk_cfg w [EvGetRun r; EvGetVoxelSpacing v;
                               EvGetTomogram (py_replace ".zarr" "" s1)])).
Proof.
  intros Hr. split; [|split].
  - intros s0 Hp. enter_route (mk_request m path body) w run Hp Hr. reflexivity.
  - intros s0 s1 rest v Hp Hf Hv. enter_route (mk_request m path body) w run Hp Hr.
    cbn [List.length Nat.ltb Nat.leb nth skipn]. rewrite Hf. unfold_calls.
    cbn [world log app]. rewrite Hv. reflexivity.
  - intros s0 s1 rest v vs Hp Hf Hv Ht. enter_route (mk_request m path body) w run Hp Hr.
    cbn [List.length Nat.ltb Nat.leb nth skipn]. rewrite Hf. unfold_calls.
    cbn [world log app]. rewrite Hv. cbn [world log app]. rewrite Ht. reflexivity.
Qed.

(** [_handle_tomogram]: a PUT to a writable tomogram stores the body
    under the key made of the remaining segments; the answer is 200 with
    the new world, or 500 with the world unchanged when the store fails. *)
Theorem tomogram_put_writable (w : World) (body : bytes) (path r s0 s1 : string)
    (rest : list string) (run : Run) (v : pyfloat) (vs : VoxelSpacing) (t : Tomogram) :
  py_split "/" path = r :: "Tomograms" :: s0 :: s1 :: rest ->
  root_get_run w r = Some run ->
  py_float (py_replace "VoxelSpacing" "" s0) = Some v ->
  run_get_voxel_spacing w run v = Some vs ->
  vs_get_tomogram w vs (py_replace ".zarr" "" s1) = Some t ->
  tomo_read_only w t = false ->
  let key := py_join "/" rest in
  let logged := [EvGetRun r; EvGetVoxelSpacing v; EvGetTomogram (py_replace ".zarr" "" s1);
                 EvTomoZarrSet key body] in
  (forall w', tomo_zarr_set w t key body = Ok w' ->
     serve w (mk_request PUT path body) = (Ok (resp 200), mk_cfg w' logged)) /\
  (forall e, tomo_zarr_set w t key body = Err e ->
     serve w (mk_request PUT path body) = (Ok (resp 500), mk_cfg w logged)).
Proof.
  intros Hp Hr Hf Hv Ht Hro key logged.
  enter_route (mk_request PUT path body) w run Hp Hr.
  cbn [List.length Nat.ltb Nat.leb nth skipn]. rewrite Hf. unfold_calls.
  cbn [world log app]. rewrite Hv. cbn [world log app]. rewrite Ht. cbn [world log app].
  rewrite Hro. cbn [is_method method method_eqb andb negb world log app req_body].
  subst key logged. split.
  - intros w' Hs. rewrite Hs. reflexivity.
  - intros e Hs. rewrite Hs. reflexivity.
Qed.

(** [_handle_tomogram]: a GET or HEAD of a found tomogram reads the key;
    the chunk is the body of a 200 (none for HEAD), a [KeyError] gives
    404, and any other error is caught by the router as 500. *)
Theorem tomogram_read (w : World) (m : Method) (body : bytes) (path r s0 s1 : string)
    (rest : list string) (run : Run) (v : pyfloat) (vs : VoxelSpacing) (t : Tomogram) :
  m <> PUT ->
  py_split "/" path = r :: "Tomograms" :: s0 :: s1 :: rest ->
  root_get_run w r = Some run ->
  py_float (py_replace "VoxelSpacing" "" s0) = Some v ->
  run_get_voxel_spacing w run v = Some vs ->
  vs_get_tomogram w vs (py_replace ".zarr" "" s1) = Some t ->
  let key := py_join "/" rest in
  let logged := [EvGetRun r; EvGetVoxelSpacing v; EvGetTomogram (py_replace ".zarr" "" s1);
                 EvTomoZarrGet key] in
  (forall b, tomo_zarr_get w t key = Ok b ->
     serve w (mk_request m path body) =
     (Ok (mk_response 200 (if method_eqb m HEAD then None else Some b)), mk_cfg w logged)) /\
  (tomo_zarr_get w t key = Err KeyError ->
     serve w (mk_request m path body) = (Ok (resp 404), mk_cfg w logged)) /\
  (forall e, e <> KeyError -> tomo_zarr_get w t key = Err e ->
     serve w (mk_request m path body) = (Ok (resp 500), mk_cfg w logged)).
Proof.
  intros Hm Hp Hr Hf Hv Ht key logged.
  enter_route (mk_request m path body) w run Hp Hr.
  cbn [List.length Nat.ltb Nat.leb nth skipn]. rewrite Hf. unfold_calls.
  cbn [world log app]. rewrite Hv. cbn [world log app]. rewrite Ht. cbn [world log app].
  assert (Hn : is_method (mk_request m path body) PUT = false)
    by (destruct m; [reflexivity|reflexivity|contradiction]).
  rewrite Hn. cbn [andb world log app is_method method].
  subst key logged. split; [|split].
  - intros b Hb. rewrite Hb. reflexivity.
  - intros Hb. rewrite Hb. reflexivity.
  - intros e He Hb. rewrite Hb. destruct e; [contradiction|reflexivity|reflexivity].
Qed.

(** [_handle_picks]: a PUT with a well-formed [user_session_object]
    file name creates the pick set, sets its metadata from the body and
    stores it: 200, with the world after the store. *)
Theorem picks_put_store (w : World) (body : bytes) (path r f : string) (rest : list string)
    (run : Run) (u s o : string) (p : Picks) (w1 : World) (pf : PicksFile) (w2 : World) :
  py_split "/" path = r :: "Picks" :: f :: rest ->
  root_get_run w r = Some run ->
  py_split "_" f = [u; s; o] ->
  run_new_picks w run (py_replace ".json" "" o) u s = Ok (p, w1) ->
  picks_file_of_body body = Ok pf ->
  picks_store (picks_set_meta w1 p pf) p = Ok w2 ->
  serve w (mk_request PUT path body) =
  (Ok (resp 200), mk_cfg w2 [EvGetRun r; EvNewPicks (py_replace ".json" "" o) u s;
                            EvSetPicksMeta; EvStorePicks]).
Proof.
  intros Hp Hr Hs Hn Hb Hst. enter_route (mk_request PUT path body) w run Hp Hr.
  cbn [nth]. rewrite Hs. cbn [List.length Nat.ltb Nat.leb Nat.eqb negb nth].
  unfold_calls. cbn [is_method method method_eqb world log app req_body].
  rewrite Hn. cbn [fst snd world log app]. rewrite Hb. cbn [world log app].
  rewrite Hst. reflexivity.
Qed.

(** [_handle_picks]: when the body does not parse as a pick file, the
    answer is 500, but the pick set created just before stays in the
    world. *)
Theorem picks_put_bad_body (w : World) (body : bytes) (path r f : string) (rest : list string)
    (run : Run) (u s o : string) (p : Picks) (w1 : World) (e : exn) :
  py_split "/" path = r :: "Picks" :: f :: rest ->
  root_get_run w r = Some run ->
  py_split "_" f = [u; s; o] ->
  run_new_picks w run (py_replace ".json" "" o) u s = Ok (p, w1) ->
  picks_file_of_body body = Err e ->
  serve w (mk_request PUT path body) =
  (Ok (resp 500), mk_cfg w1 [EvGetRun r; EvNewPicks (py_replace ".json" "" o) u s]).
Proof.
  intros Hp Hr Hs Hn Hb. enter_route (mk_request PUT path body) w run Hp Hr.
  cbn [nth]. rewrite Hs. cbn [List.length Nat.ltb Nat.leb Nat.eqb negb nth].
  unfold_calls. cbn [is_method method method_eqb world log app req_body].
  rewrite Hn. cbn [fst snd world log app]. rewrite Hb. reflexivity.
Qed.

(** [_handle_picks]: a GET or HEAD of picks nobody stored is 404; when
    some are stored, HEAD is 200 without body, and GET answers 200 with
    the first one's JSON, or 500 when it cannot be serialised. *)
Theorem picks_read (w : World) (m : Method) (body : bytes) (path r f : string)
    (rest : list string) (run : Run) (u s o : string) :
  m <> PUT ->
  py_split "/" path = r :: "Picks" :: f :: rest ->
  root_get_run w r = Some run ->
  py_split "_" f = [u; s; o] ->
  let on := py_replace ".json" "" o in
  let logged := [EvGetRun r; EvGetPicks on u s] in
  (run_get_picks w run on u s = [] ->
     serve w (mk_request m path body) = (Ok (resp 404), mk_cfg w logged)) /\
  (forall p ps, run_get_picks w run on u s = p :: ps ->
     (m = HEAD -> serve w (mk_request m path body) = (Ok (resp 200), mk_cfg w logged)) /\
     (m = GET -> forall js, picks_meta_json w p = Ok js ->
        serve w (mk_request m path body) =
        (Ok (mk_response 200 (Some js)), mk_cfg w (logged ++ [EvPicksJson]))) /\
     (m = GET -> forall e, picks_meta_json w p = Err e ->
        serve w (mk_request m path body) =
        (Ok (resp 500), mk_cfg w (logged ++ [EvPicksJson])))).
Proof.
  intros Hm Hp Hr Hs on logged. enter_route (mk_request m path body) w run Hp Hr.
  cbn [nth]. rewrite Hs. cbn [List.length Nat.ltb Nat.leb Nat.eqb negb nth].
  fold on.
  assert (Hn : is_method (mk_request m path body) PUT = false)
    by (destruct m; [reflexivity|reflexivity|contradiction]).
  rewrite Hn. unfold_calls. cbn [world log app]. subst logged. split.
  - intros Hg. rewrite Hg. reflexivity.
  - intros p ps Hg. rewrite Hg. split; [|split].
    + intros ->. reflexivity.
    + intros -> js Hj. cbn [is_method method method_eqb world log app]. rewrite Hj. reflexivity.
    + intros -> e Hj. cbn [is_method method method_eqb world log app]. rewrite Hj. reflexivity.
Qed.

(** [_handle_segmentation]: a file name with fewer than four
    [_]-separated fields is answered 404 for every method, after the run
    lookup alone. *)
Theorem segmentation_short_name_404 (w : World) (m : Method) (body : bytes) (path r f : string)
    (rest : list string) (run : Run) :
  py_split "/" path = r :: "Segmentations" :: f :: rest ->
  root_get_run w r = Some run ->
  (List.length (py_split "_" (py_replace ".zarr" "" f)) < 4)%nat ->
  serve w (mk_request m path body) = (Ok (resp 404), mk_cfg w [EvGetRun r]).
Proof.
  intros Hp Hr Hl. enter_route (mk_request m path body) w run Hp Hr.
  cbn [nth]. rewrite (proj2 (Nat.ltb_lt _ _) Hl). reflexivity.
Qed.

(** [_handle_segmentation]: a GET or HEAD of a segmentation that is not
    stored is 404; for a stored one the first match's key is read, 200
    with the chunk (none for HEAD), or 404 on [KeyError]. *)
Theorem segmentation_read (w : World) (m : Method) (body : bytes) (path r f : string)
    (rest : list string) (run : Run) (vsz u s : string) (nm : list string) (v : pyfloat) :
  m <> PUT ->
  py_split "/" path = r :: "Segmentations" :: f :: rest ->
  root_get_run w r = Some run ->
  py_split "_" (py_replace ".zarr" "" f) = vsz :: u :: s :: nm -> nm <> [] ->
  py_float vsz = Some v ->
  let name := py_join "_" nm in
  let ml := py_contains "multilabel" name in
  let cn := py_replace "-multilabel" "" name in
  let key := py_join "/" rest in
  let logged := [EvGetRun r; EvGetSegmentations v cn u s ml] in
  (run_get_segmentations w run v cn u s ml = [] ->
     serve w (mk_request m path body) = (Ok (resp 404), mk_cfg w logged)) /\
  (forall g gs, run_get_segmentations w run v cn u s ml = g :: gs ->
     (forall b, seg_zarr_get w g key = Ok b ->
        serve w (mk_request m path body) =
        (Ok (mk_response 200 (if method_eqb m HEAD then None else Some b)),
         mk_cfg w (logged ++ [EvSegZarrGet key]))) /\
     (seg_zarr_get w g key = Err KeyError ->
        serve w (mk_request m path body) =
        (Ok (resp 404), mk_cfg w (logged ++ [EvSegZarrGet key])))).
Proof.
  intros Hm Hp Hr Hs Hne Hf name ml cn key logged.
  enter_route (mk_request m path body) w run Hp Hr.
  cbn [nth]. rewrite Hs.
  destruct nm as [|n0 nm']; [contradiction|].
  cbn [List.length Nat.ltb Nat.leb nth skipn]. rewrite Hf.
  assert (Hn : is_method (mk_request m path body) PUT = false)
    by (destruct m; [reflexivity|reflexivity|contradiction]).
  unfold_calls. cbn [lift_opt]. rewrite Hn. fold name ml cn. cbn [world log app].
  subst logged key. split.
  - intros Hg. rewrite Hg. reflexivity.
  - intros g gs Hg. rewrite Hg. cbn [skipn world log app]. split.
    + intros b Hb. rewrite Hb. reflexivity.
    + intros Hb. rewrite Hb. reflexivity.
Qed.

(** [_handle_segmentation]: a PUT whose body is not a decodable frame
    is answered 500 with nothing written and only the run lookup logged. *)
Theorem segmentation_put_undecodable (w : World) (path r f : string) (rest : list string)
    (run : Run) (vsz : string) (fields : list string) (v : pyfloat) (blob : bytes) :
  py_split "/" path = r :: "Segmentations" :: f :: rest ->
  root_get_run w r = Some run ->
  py_split "_" (py_replace ".zarr" "" f) = vsz :: fields ->
  (3 <= List.length fields)%nat ->
  py_float vsz = Some v ->
  decode_frame blob = None ->
  serve w (mk_request PUT path blob) = (Ok (resp 500), mk_cfg w [EvGetRun r]).
Proof.
  intros Hp Hr Hs Hl Hf Hd. enter_route (mk_request PUT path blob) w run Hp Hr.
  cbn [nth]. rewrite Hs.
  rewrite (proj2 (Nat.ltb_ge (List.length (vsz :: fields)) 4)) by (cbn [List.length]; lia).
  cbn [List.length Nat.ltb Nat.leb nth]. rewrite Hf. unfold_calls.
  cbn [is_method method method_eqb req_body]. rewrite Hd. reflexivity.
Qed.

(** [_handle_segmentation]: a PUT with a decodable body writes the
    decoded array under the parsed user, name, session, spacing and
    multilabel flag; 200 with the new world, or 500 when the writer
    fails. *)
Theorem segmentation_put_write (w : World) (path r f : string) (rest : list string)
    (run : Run) (vsz u s : string) (nm : list string) (v : pyfloat) (blob : bytes)
    (data : ndarray) :
  py_split "/" path = r :: "Segmentations" :: f :: rest ->
  root_get_run w r = Some run ->
  py_split "_" (py_replace ".zarr" "" f) = vsz :: u :: s :: nm -> nm <> [] ->
  py_float vsz = Some v ->
  decode_frame blob = Some data ->
  let name := py_join "_" nm in
  let ml := py_contains "multilabel" name in
  let cn := py_replace "-multilabel" "" name in
  let logged := [EvGetRun r; EvWriteSegmentation run data u cn s v ml] in
  (forall w', write_segmentation w run data u cn s v ml = Ok w' ->
     serve w (mk_request PUT path blob) = (Ok (resp 200), mk_cfg w' logged)) /\
  (forall e, write_segmentation w run data u cn s v ml = Err e ->
     serve w (mk_request PUT path blob) = (Ok (resp 500), mk_cfg w logged)).
Proof.
  intros Hp Hr Hs Hne Hf Hd name ml cn logged.
  enter_route (mk_request PUT path blob) w run Hp Hr.
  cbn [nth]. rewrite Hs.
  destruct nm as [|n0 nm']; [contradiction|].
  cbn [List.length Nat.ltb Nat.leb nth skipn]. rewrite Hf.
  unfold_calls. cbn [lift_opt is_method method method_eqb req_body]. rewrite Hd.
  fold name ml cn. cbn [world log app]. subst logged. split.
  - intros w' Hw. rewrite Hw. reflexivity.
  - intros e Hw. rewrite Hw. reflexivity.
Qed.

End RouteCases.

End RouteFacts.

(* ------------------------------------------------------------------ *)
(** ** The client against the server *)

Module ClientFacts.
Import PyStr Frame Server Client StrFacts ServerFacts FrameFacts StrMore FrameMore RouteFacts.
Open Scope list_scope.
Open Scope Z_scope.

(** [create_empty_segmentation] on a 2-D tomogram of shape (a,b) sends a
    16-byte header.  The server decodes it as shape (a,b) only when a*b is
    0, as shape (a,b,0) with no data when a*b is 8, and not at all
    otherwise. *)
Theorem client_2d_shape_decode (run_name vs u s name : string) (ml : bool) (a b : Z) :
  shape_creatable [a; b] ->
  exists req, segmentation_put run_name vs u s name ml [a; b] = Some req /\
  decode_frame req.(req_body) =
    (if a * b =? 0 then Some (mk_ndarray [a; b] [])
     else if a * b =? 8 then Some (mk_ndarray [a; b; 0] [])
     else None).
Proof.
  intros Hc. destruct (creatable_two_bounds _ _ Hc) as (Ha & Hb & Hab).
  assert (R : forall d, 0 <= d <= NPY_MAX_INTP -> int64_of_le (int64_tobytes d) = d)
    by (intros d Hd; apply int64_roundtrip; unfold NPY_MAX_INTP in Hd; lia).
  unfold segmentation_put, np_zeros.
  rewrite creatableb_true by exact Hc. eexists; split; [reflexivity|]. cbn [req_body nd_shape nd_data flat_map].
  rewrite app_nil_r.
  assert (Hn : Z.of_nat (Z.to_nat (product [a; b])) = a * b)
    by (cbn [product fold_right]; rewrite Z2Nat.id by nia; ring).
  revert Hn. generalize (Z.to_nat (product [a; b])) as n. intros n Hn.
  destruct n as [|[|[|[|[|[|[|[|k]]]]]]]];
    [| (unfold decode_frame; rewrite firstn_all2 by (rewrite !length_app; cbn; lia);
        cbn [repeat]; cbn in Hn;
        rewrite (proj2 (Z.eqb_neq (a * b) 0)), (proj2 (Z.eqb_neq (a * b) 8)) by lia;
        reflexivity) ..|].
  - cbn [repeat] in *. rewrite app_nil_r. unfold decode_frame.
    rewrite firstn_all2 by (rewrite length_app; cbn; lia).
    rewrite skipn_all2 by (rewrite length_app; cbn; lia).
    change (frombuffer_int64 (int64_tobytes a ++ int64_tobytes b))
      with (Some [int64_of_le (int64_tobytes a); int64_of_le (int64_tobytes b)]).
    rewrite (R a Ha), (R b Hb), np_reshape_two by lia.
    rewrite <- Hn. reflexivity.
  - assert (Hblob : int64_tobytes a ++ int64_tobytes b ++ repeat Byte.x00 (S (S (S (S (S (S (S (S k)))))))) =
                    (int64_tobytes a ++ int64_tobytes b ++ int64_tobytes 0) ++ repeat Byte.x00 k)
      by (rewrite <- !app_assoc; reflexivity).
    rewrite <- app_assoc, Hblob.
    unfold decode_frame.
    destruct (firstn_skipn_24 (int64_tobytes a ++ int64_tobytes b ++ int64_tobytes 0)
                (repeat Byte.x00 k)) as [-> ->]; [reflexivity|].
    rewrite frombuffer_three, (R a Ha), (R b Hb), (R 0) by (unfold NPY_MAX_INTP; lia).
    rewrite repeat_length, np_reshape_two_zero by lia.
    rewrite (proj2 (Z.eqb_neq (a * b) 0)) by lia.
    destruct k as [|k].
    + rewrite (proj2 (Z.eqb_eq (a * b) 8)) by lia. reflexivity.
    + rewrite (proj2 (Z.eqb_neq (a * b) 8)) by lia. reflexivity.
Qed.

Open Scope string_scope.

Lemma split_three_segments (a k f : string) :
  has_char "/" a = false -> has_char "/" k = false -> has_char "/" f = false ->
  py_split "/" (a ++ String "/" (k ++ String "/" f)) = [a; k; f].
Proof.
  intros Ha Hk Hf. rewrite py_split_app by exact Ha. rewrite py_split_app by exact Hk.
  rewrite py_split_no_char by exact Hf. reflexivity.
Qed.

Section Compose.
Context {B : Backend}.

(** [create_empty_segmentation] composed with the server: for a 3-D shape
    of a found run, names free of [/], of [.zarr] and (but for the name)
    of [_], and a name without [-multilabel], the PUT it sends reaches [write_segmentation] with the zero array of that
    shape, the client's user, name and session, the spacing and the
    multilabel flag; 200 on success, 500 if the writer fails. *)
Theorem client_segmentation_put_call (w : World) (run_name vs u s name : string) (ml : bool)
    (d0 d1 d2 : Z) (run : Run) (v : pyfloat) :
  Forall (fun x => has_char "/" x = false) [run_name; vs; u; s; name] ->
  Forall (fun x => has_char "_" x = false) [vs; u; s] ->
  Forall (fun x => py_contains ".zarr" x = false) [vs; u; s; name] ->
  py_contains "-multilabel" name = false ->
  py_float vs = Some v ->
  shape_creatable [d0; d1; d2] ->
  root_get_run w run_name = Some run ->
  exists req, segmentation_put run_name vs u s name ml [d0; d1; d2] = Some req /\
  let data := mk_ndarray [d0; d1; d2] (repeat Byte.x00 (Z.to_nat (product [d0; d1; d2]))) in
  let flag := ml || py_contains "multilabel" name in
  let logged := [EvGetRun run_name; EvWriteSegmentation run data u name s v flag] in
  (forall w', write_segmentation w run data u name s v flag = Ok w' ->
     serve w req = (Ok (resp 200), mk_cfg w' logged)) /\
  (forall e, write_segmentation w run data u name s v flag = Err e ->
     serve w req = (Ok (resp 500), mk_cfg w logged)).
Proof.
  intros Hsl Hus Hzr Hml Hf Hc Hr.
  repeat match goal with
         | H : Forall _ (_ :: _) |- _ => inversion H; subst; clear H
         | H : Forall _ [] |- _ => clear H
         end.
  set (data := mk_ndarray [d0; d1; d2] (repeat Byte.x00 (Z.to_nat (product [d0; d1; d2])))).
  assert (Hz : np_zeros [d0; d1; d2] = Some data)
    by (unfold np_zeros; rewrite creatableb_true by exact Hc; reflexivity).
  unfold segmentation_put. rewrite Hz. eexists; split; [reflexivity|].
  set (name' := if ml then name ++ "-multilabel" else name).
  set (stem := vs ++ String "_" (u ++ String "_" (s ++ String "_" name'))).
  set (F := seg_filename vs u s name ml).
  assert (HF : F = stem ++ ".zarr").
  { subst F stem name'. unfold seg_filename. destruct ml; [|reflexivity].
    repeat (rewrite append_assoc_str || (progress cbn [append])). reflexivity. }
  assert (Hn'z : py_contains ".zarr" name' = false).
  { subst name'. destruct ml; [|assumption].
    apply contains_app_sep; [discriminate|reflexivity|assumption|reflexivity]. }
  assert (Hstemz : py_contains ".zarr" stem = false).
  { subst stem. repeat (apply contains_app_sep; [discriminate|reflexivity|assumption|]).
    exact Hn'z. }
  assert (Hslash : has_char "/" F = false).
  { rewrite HF. subst stem name'. destruct ml;
      repeat (rewrite has_char_app || (progress cbn [has_char Ascii.eqb Bool.eqb andb orb]));
      repeat match goal with H : has_char "/" _ = false |- _ => rewrite H end; reflexivity. }
  assert (Hp : py_split "/" (run_name ++ "/Segmentations/" ++ F) = [run_name; "Segmentations"; F])
    by (apply (split_three_segments run_name "Segmentations" F); [assumption|reflexivity|exact Hslash]).
  assert (Hrep : py_replace ".zarr" "" F = stem).
  { rewrite HF. apply replace_suffix; [exact border_free_zarr|discriminate|exact Hstemz]. }
  assert (Hsplit : py_split "_" stem = vs :: u :: s :: py_split "_" name').
  { subst stem. rewrite !py_split_app by assumption. reflexivity. }
  assert (Hj : py_join "_" (py_split "_" name') = name') by apply py_join_split.
  assert (Hcn : py_replace "-multilabel" "" name' = name).
  { subst name'. destruct ml.
    - apply replace_suffix; [exact border_free_multilabel|discriminate|exact Hml].
    - unfold py_replace. apply replace_go_absent, Hml. }
  assert (Hflag : py_contains "multilabel" name' = ml || py_contains "multilabel" name).
  { subst name'. destruct ml; [|reflexivity]. apply contains_app_r. reflexivity. }
  assert (Hd : decode_frame (app (flat_map int64_tobytes data.(nd_shape)) data.(nd_data)) = Some data).
  { apply (decode_encode_three d0 d1 d2); [exact Hc|].
    cbn [nd_data]. rewrite repeat_length.
    destruct (creatable_prefix_products _ _ _ Hc) as (? & ? & ? & _).
    cbn [product fold_right]. rewrite Z2Nat.id by nia. ring. }
  clearbody F stem name' data.
  destruct (py_split "_" name') as [|n0 nm] eqn:En; [exfalso; exact (py_split_not_nil _ _ En)|].
  split; [intros w' Hw|intros e Hw];
  enter_route (mk_request PUT (run_name ++ "/Segmentations/" ++ F)
                 (app (flat_map int64_tobytes data.(nd_shape)) data.(nd_data))) w run Hp Hr;
  cbn [nth]; rewrite Hrep, Hsplit;
  cbn [List.length Nat.ltb Nat.leb nth skipn]; rewrite Hf;
  unfold_calls; cbn [lift_opt is_method method method_eqb req_body]; rewrite Hd;
  rewrite Hj, Hcn, Hflag; cbn [world log app]; rewrite Hw; reflexivity.
Qed.

(** The client's zarr store on [.../VoxelSpacing{voxel_size}/wbp.zarr]:
    fetching a key reaches the [wbp] tomogram at that spacing and reads
    the same key; 200 with the chunk, or 404 on [KeyError]. *)
Theorem client_tomogram_read (w : World) (run_name vs key : string) (run : Run) (v : pyfloat)
    (vsp : VoxelSpacing) (t : Tomogram) :
  has_char "/" run_name = false -> has_char "/" vs = false ->
  py_contains "VoxelSpacing" vs = false -> py_float vs = Some v ->
  root_get_run w run_name = Some run ->
  run_get_voxel_spacing w run v = Some vsp -> vs_get_tomogram w vsp "wbp" = Some t ->
  let req := store_key_request (tomogram_store run_name vs) key in
  let logged := [EvGetRun run_name; EvGetVoxelSpacing v; EvGetTomogram "wbp";
                 EvTomoZarrGet key] in
  (forall b, tomo_zarr_get w t key = Ok b ->
     serve w req = (Ok (mk_response 200 (Some b)), mk_cfg w logged)) /\
  (tomo_zarr_get w t key = Err KeyError ->
     serve w req = (Ok (resp 404), mk_cfg w logged)).
Proof.
  intros Hrs Hvs Hvc Hf Hr Hv Ht req logged.
  assert (Hpath : req.(req_path) =
    run_name ++ String "/" ("Tomograms" ++ String "/" (("VoxelSpacing" ++ vs) ++
      String "/" ("wbp.zarr" ++ String "/" key)))).
  { subst req. unfold store_key_request, tomogram_store. cbn [req_path].
    rewrite !append_assoc_str. reflexivity. }
  assert (Hp : py_split "/" req.(req_path) =
               run_name :: "Tomograms" :: ("VoxelSpacing" ++ vs) :: "wbp.zarr" :: py_split "/" key).
  { rewrite Hpath. rewrite py_split_app by exact Hrs. rewrite py_split_app by reflexivity.
    rewrite py_split_app by (rewrite has_char_app, Hvs; reflexivity).
    rewrite py_split_app by reflexivity. reflexivity. }
  assert (Hvs' : py_replace "VoxelSpacing" "" ("VoxelSpacing" ++ vs) = vs)
    by (apply replace_prefix; [discriminate|exact Hvc]).
  assert (Hk : py_join "/" (py_split "/" key) = key) by apply py_join_split.
  assert (Hm : req = mk_request GET req.(req_path) []) by reflexivity.
  rewrite Hm. clearbody req. clear Hpath Hm.
  enter_route (mk_request GET (req_path req) []) w run Hp Hr.
  cbn [List.length Nat.ltb Nat.leb nth skipn]. rewrite Hvs', Hf. unfold_calls.
  cbn [world log app]. rewrite Hv. cbn [world log app].
  change (py_replace ".zarr" "" "wbp.zarr") with "wbp". rewrite Ht. cbn [world log app].
  cbn [is_method method method_eqb andb]. rewrite Hk. subst logged. cbn [world log app]. split.
  - intros b Hb. rewrite Hb. reflexivity.
  - intros Hb. rewrite Hb. reflexivity.
Qed.

End Compose.

End ClientFacts.

(* ------------------------------------------------------------------ *)
(** ** The entry points *)

Module CliFacts.
Import Server Cli.
Open Scope string_scope.



End CliFacts.

(* ------------------------------------------------------------------ *)
(** ** The properties above at concrete requests on [demo_world] *)

Module ExtraChecks.
Import PyStr Frame Server Demo Client Cli FrameMore RouteFacts ClientFacts.
Open Scope string_scope.
Open Scope Z_scope.

Definition seg_path : string := "r/Segmentations/10.0_alice_s1_m.zarr".

(** A path of two segments is not found before any lookup. *)
Lemma short_path_404_witness :
  serve demo_world (mk_request GET "r/Tomograms" []) = (Ok (resp 404), mk_cfg demo_world []).
Proof.
  apply (short_path_404 (B := demo_backend)). apply Nat.ltb_lt. vm_compute. reflexivity.
Defined.

(** A known run with the unknown kind [Foo]. *)
Lemma unknown_kind_404_witness :
  serve demo_world (mk_request GET "r/Foo/x" []) = (Ok (resp 404), mk_cfg demo_world [EvGetRun "r"]).
Proof.
  apply (unknown_kind_404 (B := demo_backend) demo_world GET [] "r/Foo/x" "r" "Foo" ["x"] "r");
    reflexivity || discriminate.
Defined.

(** A GET of a tomogram chunk leaves the world as it was. *)
Lemma reads_keep_state_witness :
  (snd (serve demo_world (mk_request GET "r/Tomograms/VoxelSpacing10.0/wbp.zarr/0" []))).(world)
  = demo_world.
Proof. apply (reads_keep_state (B := demo_backend)). discriminate. Defined.

(** No voxel spacing segment; no spacing 5; no tomogram [xyz] at 10. *)
Lemma tomogram_not_found_404_witness :
  serve demo_world (mk_request GET "r/Tomograms/VoxelSpacing10.0" []) =
    (Ok (resp 404), mk_cfg demo_world [EvGetRun "r"]) /\
  serve demo_world (mk_request GET "r/Tomograms/VoxelSpacing5.0/wbp.zarr/0" []) =
    (Ok (resp 404), mk_cfg demo_world [EvGetRun "r"; EvGetVoxelSpacing (PFin 5)]) /\
  serve demo_world (mk_request GET "r/Tomograms/VoxelSpacing10.0/xyz.zarr/0" []) =
    (Ok (resp 404), mk_cfg demo_world [EvGetRun "r"; EvGetVoxelSpacing ten; EvGetTomogram "xyz"]).
Proof.
  split; [|split].
  - exact (proj1 (tomogram_not_found_404 (B := demo_backend) demo_world GET []
             "r/Tomograms/VoxelSpacing10.0" "r" "r" eq_refl) "VoxelSpacing10.0" eq_refl).
  - exact (proj1 (proj2 (tomogram_not_found_404 (B := demo_backend) demo_world GET []
             "r/Tomograms/VoxelSpacing5.0/wbp.zarr/0" "r" "r" eq_refl))
             "VoxelSpacing5.0" "wbp.zarr" ["0"] (PFin 5) eq_refl eq_refl eq_refl).
  - exact (proj2 (proj2 (tomogram_not_found_404 (B := demo_backend) demo_world GET []
             "r/Tomograms/VoxelSpacing10.0/xyz.zarr/0" "r" "r" eq_refl))
             "VoxelSpacing10.0" "xyz.zarr" ["0"] ten ("r", ten) eq_refl eq_refl eq_refl eq_refl).
Defined.

(** A PUT to the writable tomogram [ab] stores the chunk. *)
Lemma tomogram_put_writable_witness :
  exists w', serve demo_world (mk_request PUT "r/Tomograms/VoxelSpacing10.0/ab.zarr/0" [Byte.x01]) =
    (Ok (resp 200), mk_cfg w' [EvGetRun "r"; EvGetVoxelSpacing ten; EvGetTomogram "ab";
                               EvTomoZarrSet "0" [Byte.x01]]).
Proof.
  eexists.
  apply (proj1 (tomogram_put_writable (B := demo_backend) demo_world [Byte.x01]
           "r/Tomograms/VoxelSpacing10.0/ab.zarr/0" "r" "VoxelSpacing10.0" "ab.zarr" ["0"]
           "r" ten ("r", ten) 1%nat eq_refl eq_refl eq_refl eq_refl eq_refl eq_refl)).
  reflexivity.
Defined.

(** A GET of the stored chunk [0] returns it; a HEAD of the missing chunk
    [1] is not found. *)
Lemma tomogram_read_witness :
  serve demo_world (mk_request GET "r/Tomograms/VoxelSpacing10.0/wbp.zarr/0" []) =
    (Ok (mk_response 200 (Some [Byte.x2a])),
     mk_cfg demo_world [EvGetRun "r"; EvGetVoxelSpacing ten; EvGetTomogram "wbp";
                        EvTomoZarrGet "0"]) /\
  serve demo_world (mk_request HEAD "r/Tomograms/VoxelSpacing10.0/wbp.zarr/1" []) =
    (Ok (resp 404),
     mk_cfg demo_world [EvGetRun "r"; EvGetVoxelSpacing ten; EvGetTomogram "wbp";
                        EvTomoZarrGet "1"]).
Proof.
  split.
  - apply (proj1 (tomogram_read (B := demo_backend) demo_world GET []
             "r/Tomograms/VoxelSpacing10.0/wbp.zarr/0" "r" "VoxelSpacing10.0" "wbp.zarr" ["0"]
             "r" ten ("r", ten) 0%nat ltac:(discriminate) eq_refl eq_refl eq_refl eq_refl eq_refl)).
    reflexivity.
  - apply (proj1 (proj2 (tomogram_read (B := demo_backend) demo_world HEAD []
             "r/Tomograms/VoxelSpacing10.0/wbp.zarr/1" "r" "VoxelSpacing10.0" "wbp.zarr" ["1"]
             "r" ten ("r", ten) 0%nat ltac:(discriminate) eq_refl eq_refl eq_refl eq_refl eq_refl))).
    reflexivity.
Defined.

(** A PUT of a non-empty pick file for [alice/s1/ribosome]. *)
Lemma picks_put_store_witness :
  exists w2, serve demo_world (mk_request PUT "r/Picks/alice_s1_ribosome.json" [Byte.x01]) =
    (Ok (resp 200), mk_cfg w2 [EvGetRun "r"; EvNewPicks "ribosome" "alice" "s1";
                               EvSetPicksMeta; EvStorePicks]).
Proof.
  eexists.
  eapply (picks_put_store (B := demo_backend) demo_world [Byte.x01]
            "r/Picks/alice_s1_ribosome.json" "r" "alice_s1_ribosome.json" [] "r"
            "alice" "s1" "ribosome.json" 1%nat _ [Byte.x01]); reflexivity.
Defined.

(** A PUT with an empty body, which the pick-file parser rejects. *)
Lemma picks_put_bad_body_witness :
  exists w1, serve demo_world (mk_request PUT "r/Picks/alice_s1_ribosome.json" []) =
    (Ok (resp 500), mk_cfg w1 [EvGetRun "r"; EvNewPicks "ribosome" "alice" "s1"]).
Proof.
  eexists.
  eapply (picks_put_bad_body (B := demo_backend) demo_world []
            "r/Picks/alice_s1_ribosome.json" "r" "alice_s1_ribosome.json" [] "r"
            "alice" "s1" "ribosome.json" 1%nat _ ValueError); reflexivity.
Defined.

(** No picks of [bob]; a HEAD of [alice]'s picks; a GET of them, whose
    file cannot be loaded. *)
Lemma picks_read_witness :
  serve demo_world (mk_request GET "r/Picks/bob_s1_ribosome.json" []) =
    (Ok (resp 404), mk_cfg demo_world [EvGetRun "r"; EvGetPicks "ribosome" "bob" "s1"]) /\
  serve demo_world (mk_request HEAD "r/Picks/alice_s1_ribosome.json" []) =
    (Ok (resp 200), mk_cfg demo_world [EvGetRun "r"; EvGetPicks "ribosome" "alice" "s1"]) /\
  serve demo_world (mk_request GET "r/Picks/alice_s1_ribosome.json" []) =
    (Ok (resp 500), mk_cfg demo_world [EvGetRun "r"; EvGetPicks "ribosome" "alice" "s1";
                                       EvPicksJson]).
Proof.
  split; [|split].
  - apply (proj1 (picks_read (B := demo_backend) demo_world GET []
             "r/Picks/bob_s1_ribosome.json" "r" "bob_s1_ribosome.json" [] "r"
             "bob" "s1" "ribosome.json" ltac:(discriminate) eq_refl eq_refl eq_refl)).
    reflexivity.
  - apply (proj1 (proj2 (picks_read (B := demo_backend) demo_world HEAD []
             "r/Picks/alice_s1_ribosome.json" "r" "alice_s1_ribosome.json" [] "r"
             "alice" "s1" "ribosome.json" ltac:(discriminate) eq_refl eq_refl eq_refl)
             0%nat [] eq_refl)).
    reflexivity.
  - apply (proj2 (proj2 (proj2 (picks_read (B := demo_backend) demo_world GET []
             "r/Picks/alice_s1_ribosome.json" "r" "alice_s1_ribosome.json" [] "r"
             "alice" "s1" "ribosome.json" ltac:(discriminate) eq_refl eq_refl eq_refl)
             0%nat [] eq_refl)) eq_refl OtherError).
    reflexivity.
Defined.

(** A segmentation name of two fields only. *)
Lemma segmentation_short_name_404_witness :
  serve demo_world (mk_request GET "r/Segmentations/10.0_alice.zarr/0" []) =
    (Ok (resp 404), mk_cfg demo_world [EvGetRun "r"]).
Proof.
  apply (segmentation_short_name_404 (B := demo_backend) demo_world GET []
           "r/Segmentations/10.0_alice.zarr/0" "r" "10.0_alice.zarr" ["0"] "r");
    [reflexivity|reflexivity|apply Nat.ltb_lt; vm_compute; reflexivity].
Defined.

(** A GET of a segmentation that is not stored. *)
Lemma segmentation_read_witness :
  serve demo_world (mk_request GET "r/Segmentations/10.0_alice_s1_m.zarr/0" []) =
    (Ok (resp 404), mk_cfg demo_world [EvGetRun "r"; EvGetSegmentations ten "m" "alice" "s1" false]).
Proof.
  apply (proj1 (segmentation_read (B := demo_backend) demo_world GET []
           "r/Segmentations/10.0_alice_s1_m.zarr/0" "r" "10.0_alice_s1_m.zarr" ["0"] "r"
           "10.0" "alice" "s1" ["m"] ten ltac:(discriminate) eq_refl eq_refl eq_refl
           ltac:(discriminate) eq_refl)).
  reflexivity.
Defined.

(** A one-byte body is no frame. *)
Lemma segmentation_put_undecodable_witness :
  serve demo_world (mk_request PUT seg_path [Byte.x01]) =
    (Ok (resp 500), mk_cfg demo_world [EvGetRun "r"]).
Proof.
  apply (segmentation_put_undecodable (B := demo_backend) demo_world seg_path "r"
           "10.0_alice_s1_m.zarr" [] "r" "10.0" ["alice"; "s1"; "m"] ten [Byte.x01]);
    [reflexivity|reflexivity|reflexivity|cbn; lia|reflexivity|reflexivity].
Defined.

(** A frame of shape (1,1,1) is written. *)
Lemma segmentation_put_write_witness :
  exists w', serve demo_world (mk_request PUT seg_path
                 (app (flat_map int64_tobytes [1; 1; 1]) [Byte.x07])) =
    (Ok (resp 200), mk_cfg w' [EvGetRun "r";
       EvWriteSegmentation "r" (mk_ndarray [1; 1; 1] [Byte.x07]) "alice" "m" "s1" ten false]).
Proof.
  eexists.
  apply (proj1 (segmentation_put_write (B := demo_backend) demo_world seg_path "r"
           "10.0_alice_s1_m.zarr" [] "r" "10.0" "alice" "s1" ["m"] ten
           (app (flat_map int64_tobytes [1; 1; 1]) [Byte.x07]) (mk_ndarray [1; 1; 1] [Byte.x07])
           eq_refl eq_refl eq_refl ltac:(discriminate) eq_refl eq_refl)).
  reflexivity.
Defined.

(** The frame of shape (1,1,2) with two bytes. *)
Lemma decode_frame_accepts_witness :
  let blob := app (flat_map int64_tobytes [1; 1; 2]) [Byte.x01; Byte.x02] in
  decode_frame blob = Some (mk_ndarray [1; 1; 2] [Byte.x01; Byte.x02]) /\
  [Byte.x01; Byte.x02] = skipn 24 blob /\ Forall (fun d => 0 <= d) [1; 1; 2] /\
  product [1; 1; 2] = Z.of_nat (List.length [Byte.x01; Byte.x02]) /\
  (List.length [1; 1; 2] <= 3)%nat.
Proof.
  intros blob. assert (H : decode_frame blob = Some (mk_ndarray [1; 1; 2] [Byte.x01; Byte.x02]))
    by reflexivity.
  split; [exact H|]. exact (decode_frame_accepts blob _ H).
Defined.

(** The client's PUT for a multilabel segmentation [m] of shape (1,1,2)
    in run [r] at spacing 10.0 reaches the writer with that name and
    flag, and is written. *)
Lemma client_segmentation_put_call_witness :
  exists req w', segmentation_put "r" "10.0" "alice" "s1" "m" true [1; 1; 2] = Some req /\
    serve demo_world req =
    (Ok (resp 200), mk_cfg w' [EvGetRun "r";
       EvWriteSegmentation "r" (mk_ndarray [1; 1; 2] [Byte.x00; Byte.x00]) "alice" "m" "s1"
         ten true]).
Proof.
  assert (Hs : shape_creatable [1; 1; 2]).
  { split; [repeat constructor; lia | vm_compute; congruence]. }
  destruct (client_segmentation_put_call (B := demo_backend) demo_world "r" "10.0" "alice" "s1"
              "m" true 1 1 2 "r" ten ltac:(repeat constructor) ltac:(repeat constructor)
              ltac:(repeat constructor) eq_refl eq_refl Hs eq_refl) as [req [Hreq [Hok _]]].
  exists req. eexists. split; [exact Hreq|]. apply Hok. reflexivity.
Defined.

(** The client's read of chunk [0] of the [wbp] tomogram of run [r] at
    spacing 10.0. *)
Lemma client_tomogram_read_witness :
  serve demo_world (store_key_request (tomogram_store "r" "10.0") "0") =
    (Ok (mk_response 200 (Some [Byte.x2a])),
     mk_cfg demo_world [EvGetRun "r"; EvGetVoxelSpacing ten; EvGetTomogram "wbp";
                        EvTomoZarrGet "0"]).
Proof.
  exact (proj1 (client_tomogram_read (B := demo_backend) demo_world "r" "10.0" "0" "r" ten
           ("r", ten) 0%nat eq_refl eq_refl eq_refl eq_refl eq_refl eq_refl eq_refl)
           [Byte.x2a] eq_refl).
Defined.

(** A 2x4 tomogram: the client's 16-byte header and 8 zero bytes decode
    as shape (2,4,0) with no data. *)
Lemma client_2d_shape_decode_witness :
  exists req, segmentation_put "r" "10.0" "alice" "s1" "m" false [2; 4] = Some req /\
    decode_frame req.(req_body) = Some (mk_ndarray [2; 4; 0] []).
Proof.
  assert (Hs : shape_creatable [2; 4]).
  { split; [repeat constructor; lia | vm_compute; congruence]. }
  destruct (client_2d_shape_decode "r" "10.0" "alice" "s1" "m" false 2 4 Hs) as [req [H1 H2]].
  exists req. split; [exact H1|]. rewrite H2. reflexivity.
Defined.

End ExtraChecks.
